(** * Roadmap deck generator: a shallow embedding of [lib.py]

    The development follows the Python module function by function.

    - Numbers of the configuration (point sizes, paddings, offsets) are
      Python ints or floats; they are embedded as exact rationals [Q], so
      [/] is true division without rounding and [==] is equality of the
      values.
    - Python strings are embedded as [string], lists as [list], exceptions
      as values of [exn] carried by [result].
    - [roadmap_slide_config] is a dictionary of dictionaries: the top level
      records which entries exist, each entry is a record of the keys the
      module reads from it.  The entries of ['columns'] are distinct
      dictionaries, as decoding a configuration document yields them.
    - The request bodies are the nested dictionaries and lists the module
      builds, as [json] values. *)

From Stdlib Require Import Ascii String QArith Lqa ZArith Lia.
From stdpp Require Import base strings list gmap pretty sorting.

Set Default Proof Using "Type".

(** ** Python runtime: exceptions and results *)

Inductive exn : Type :=
| Exception (msg : string)          (* raise Exception(msg) *)
| KeyError (key : string)           (* d[key] on a dict without key *)
| AttributeError (name : string)    (* o.name, getattr(o, name): no such attribute *)
| ZeroDivisionError.                (* x / 0 *)

Inductive result (A : Type) : Type :=
| Ok (a : A)
| Raise (e : exn).

Arguments Ok {A} a.
Arguments Raise {A} e.

#[global] Instance result_ret : MRet result := @Ok.

#[global] Instance result_bind : MBind result :=
  λ A B f r, match r with Ok a => f a | Raise e => Raise e end.

(** [d[key]] on a dict whose entry may be missing. *)
Definition subscript {A} (key : string) (entry : option A) : result A :=
  match entry with Some v => Ok v | None => Raise (KeyError key) end.

(** True division by a Python int. *)
Definition py_div (a b : Q) : result Q :=
  if Qeq_bool b 0 then Raise ZeroDivisionError else Ok (a / b)%Q.

(** [len(l)] and [enumerate] indices as numbers. *)
Definition Qnat (n : nat) : Q := inject_Z (Z.of_nat n).

(** ** Python strings *)

Definition newline : string := String "010"%char EmptyString.
Definition dquote : string := String "034"%char EmptyString.

Fixpoint spaces (n : nat) : string :=
  match n with O => EmptyString | S n' => String " "%char (spaces n') end.

(** [s[:n]] for [n >= 0]. *)
Fixpoint str_take (n : nat) (s : string) : string :=
  match n, s with
  | S n', String c s' => String c (str_take n' s')
  | _, _ => EmptyString
  end.

(** [s[n:]] for [n >= 0]. *)
Fixpoint str_drop (n : nat) (s : string) : string :=
  match n, s with
  | S n', String _ s' => str_drop n' s'
  | _, _ => s
  end.

(** [s[:n]] for any int [n]: a negative bound counts from the end. *)
Definition slice_to (n : Z) (s : string) : string :=
  if (0 <=? n)%Z then str_take (Z.to_nat n) s
  else str_take (Z.to_nat (Z.of_nat (String.length s) + n)) s.

(** [s.startswith(p)]. *)
Definition startswith (s p : string) : bool := String.prefix p s.

(** ** Requests: the JSON bodies sent to the presentation service *)

#[warnings="-register-all"]
Inductive json : Type :=
| JNum (q : Q)
| JStr (s : string)
| JBool (b : bool)
| JArr (items : list json)
| JObj (entries : list (string * json)).

Module Json.

Fixpoint assoc (k : string) (entries : list (string * json)) : option json :=
  match entries with
  | [] => None
  | (k', v) :: rest => if String.eqb k k' then Some v else assoc k rest
  end.

Definition field (k : string) (j : json) : option json :=
  match j with JObj entries => assoc k entries | _ => None end.

Fixpoint path (ks : list string) (j : json) : option json :=
  match ks with
  | [] => Some j
  | k :: ks' => match field k j with Some j' => path ks' j' | None => None end
  end.

Definition has (k : string) (j : json) : bool :=
  match field k j with Some _ => true | None => false end.

Definition num (j : option json) : option Q :=
  match j with Some (JNum q) => Some q | _ => None end.

Definition str (j : option json) : option string :=
  match j with Some (JStr s) => Some s | _ => None end.

Definition pt (magnitude : Q) : json :=
  JObj [("magnitude", JNum magnitude); ("unit", JStr "PT")].

Definition themeColor (c : string) : json :=
  JObj [("solidFill", JObj [("color", JObj [("themeColor", JStr c)])])].

Definition alpha0 : json := JObj [("solidFill", JObj [("alpha", JNum 0)])].

Definition transform (x y : Q) : json :=
  JObj [("scaleX", JNum 1); ("scaleY", JNum 1);
        ("translateX", JNum x); ("translateY", JNum y);
        ("unit", JStr "PT")].

Definition createShape (objectId shapeType pageObjectId : string)
    (height width x y : Q) : json :=
  JObj [("createShape", JObj [
    ("objectId", JStr objectId);
    ("shapeType", JStr shapeType);
    ("elementProperties", JObj [
      ("pageObjectId", JStr pageObjectId);
      ("size", JObj [("height", pt height); ("width", pt width)]);
      ("transform", transform x y)])])].

Definition insertText (objectId text : string) : json :=
  JObj [("insertText", JObj [
    ("objectId", JStr objectId);
    ("insertionIndex", JNum 0);
    ("text", JStr text)])].

Definition updateParagraphStyle (objectId alignment : string) : json :=
  JObj [("updateParagraphStyle", JObj [
    ("fields", JStr "alignment");
    ("objectId", JStr objectId);
    ("style", JObj [("alignment", JStr alignment)])])].

End Json.

(** ** Data model *)

(** [@dataclass JiraRoadmapIssue] *)
Record JiraRoadmapIssue : Type := {
  jira_id : string;
  product_categories : list string;
  jira_quarter : string;
  jira_link : string;
  summary : string;
  description : string;
  beta : bool
}.

(** [@dataclass RoadmapSlide] *)
Record RoadmapSlide : Type := {
  title : string;
  google_slide_id : string;
  product_category : string
}.

(** The entries of [roadmap_slide_config].  Each sub-dictionary is a record
    of the keys the module reads from it. *)
Record left_header_config : Type := {
  lh_shape_type : string;
  lh_locx : Q;
  lh_locy : Q;
  lh_width : Q;
  lh_height : Q;
  lh_color : string;
  lh_font_size : Q
}.

Record left_main_config : Type := {
  lm_shape_type : string;
  lm_locy : Q;
  lm_width : Q;
  lm_height : Q;
  lm_color : string;
  lm_text : string;
  lm_font_size : Q
}.

Record timeline_arrow_config : Type := {
  ta_width : Q;
  ta_color : string;
  ta_weight : Q
}.

Record quarter_marker_config : Type := {
  qm_shape_type : string;
  qm_width : Q;
  qm_height : Q;
  qm_color : string;
  qm_font : string;
  qm_font_size : Q;
  qm_font_color : string
}.

Record roadmap_box_config : Type := {
  rb_shape_type : string;
  rb_height : Q;
  rb_x_padding : Q;
  rb_y_padding : Q;
  rb_description_length : Z;
  rb_font_size : Q;
  rb_fill_color : string;
  rb_outline_color : string;
  rb_beta_label_color : string;
  rb_beta_label_outline_color : string;
  rb_beta_label_font_size : Q;
  rb_beta_label_font_color : string
}.

(** One entry of [roadmap_slide_config['columns']].  The ['count'] entry is
    the running counter [populate_roadmap_with_issues] stores in the
    dictionary itself; it is written before it is ever read. *)
Record column : Type := {
  label : string;
  jira_statuses : list string;
  count : Z
}.

Definition set_count (c : Z) (col : column) : column :=
  {| label := label col; jira_statuses := jira_statuses col; count := c |}.

(** [roadmap_slide_config['jira_roadmap_issues']], the keyword arguments of
    [get_roadmap_issues]. *)
Record jira_roadmap_issues_config : Type := {
  jira_project : string;
  issue_type : string;
  product_category_mode : string;
  product_category_prefix : string;
  include_beta : bool;
  beta_attribute_name : string
}.

(** The top-level dictionary: an entry is [None] when the key is missing. *)
Record roadmap_slide_config : Type := {
  cfg_jira_roadmap_issues : option jira_roadmap_issues_config;
  cfg_left_header : option left_header_config;
  cfg_left_main : option left_main_config;
  cfg_timeline_arrow : option timeline_arrow_config;
  cfg_quarter_marker : option quarter_marker_config;
  cfg_quarters : option json;
  cfg_roadmap_box : option roadmap_box_config;
  cfg_columns : option (list column)
}.

(** ** The issue tracker *)

(** A value reached by [getattr(issue.fields, name)]: [None], an option
    object exposing [.value], or a value of a type without that attribute,
    as the tracker gives for a text field ([str]), a number field ([float])
    or a field of several values ([list], here the values of its options). *)
Inductive custom_field : Type :=
| PyNone
| CustomFieldOption (value : string)
| PyStr (text : string)
| PyFloat (number : Q)
| PyList (items : list string).

(** A record returned by the tracker: [issue_id.id] (here [issue_id]),
    [issue.permalink()] and
    the attributes of [issue.fields] the module reads.  [fields_components]
    holds [comp.name] of every component; [fields_attributes] holds the
    attributes looked up by name. *)
Record jira_issue : Type := {
  issue_id : string;
  permalink : string;
  fields_summary : string;
  fields_description : option string;
  fields_status_name : string;
  fields_components : list string;
  fields_labels : list string;
  fields_attributes : gmap string custom_field
}.

(** [jira_service.search_issues(jql_str=..., maxResults=None)], each found
    issue paired with what [jira_service.issue(id=...)] returns for it. *)
Record JIRA : Type := {
  search_issues : string → list jira_issue
}.

(** [getattr(issue.fields, name)] *)
Definition getattr (issue : jira_issue) (name : string) : result custom_field :=
  match fields_attributes issue !! name with
  | Some v => Ok v
  | None => Raise (AttributeError name)
  end.

(** Truth value of an attribute: [None], the empty string, zero and the
    empty list are false; an option object is true. *)
Definition truthy (a : custom_field) : bool :=
  match a with
  | PyNone => false
  | CustomFieldOption _ => true
  | PyStr text => negb (String.eqb text EmptyString)
  | PyFloat number => negb (Qeq_bool number 0)
  | PyList items => negb (bool_decide (items = []))
  end.

(** [beta_attr.value]: only the option object has the attribute. *)
Definition dot_value (a : custom_field) : result string :=
  match a with
  | CustomFieldOption v => Ok v
  | _ => Raise (AttributeError "value")
  end.

(** [beta_attr and beta_attr.value == "Beta"], as a truth value: [.value] is
    read only when the attribute is true. *)
Definition attr_is_Beta (beta_attr : custom_field) : result bool :=
  if truthy beta_attr then
    v ← dot_value beta_attr; Ok (String.eqb v "Beta")
  else Ok false.

(** The attribute is an option object of value "Beta". *)
Definition value_is_Beta (a : custom_field) : bool :=
  match a with CustomFieldOption v => String.eqb v "Beta" | _ => false end.

(** ** [get_roadmap_issues] *)

Definition invalid_mode_message (mode : string) : string :=
  "product_category_mode: '" +:+ mode +:+
  "' is not valid. Choose from either 'components' or 'labels'".

Definition no_issues_message : string :=
  "No jira issues were found with the provided JQL Filter".

(** The two failures the specification calls [ConfigurationError] and
    [NotFoundError]; the module raises both as plain [Exception]. *)
Definition ConfigurationError (mode : string) : exn :=
  Exception (invalid_mode_message mode).

Definition NotFoundError : exn := Exception no_issues_message.

(** The loop over [issue_categories]. *)
Fixpoint filter_categories (prefix : string) (issue_categories : list string)
  : list string :=
  match issue_categories with
  | [] => []
  | category :: rest =>
      if startswith category prefix
      then str_drop (String.length prefix) category :: filter_categories prefix rest
      else filter_categories prefix rest
  end.

(** One iteration of the loop over [roadmap_issue_ids]: [Ok None] is
    [continue], [Ok (Some r)] is [roadmap_issues.append(r)]. *)
Definition roadmap_issue_of
    (product_category_mode product_category_prefix : string)
    (include_beta : bool) (beta_attribute_name : string)
    (issue : jira_issue) : result (option JiraRoadmapIssue) :=
  issue_categories ←
    (if String.eqb product_category_mode "components" then
       Ok (fields_components issue)
     else if String.eqb product_category_mode "labels" then
       Ok (fields_labels issue)
     else Raise (ConfigurationError product_category_mode));
  let filtered_categories :=
    filter_categories product_category_prefix issue_categories in
  let description :=
    match fields_description issue with
    | Some d => d
    | None => EmptyString
    end in
  beta_attr ← getattr issue beta_attribute_name;
  let emit (beta_flag : bool) :=
    Ok (Some {| summary := fields_summary issue;
                description := description;
                jira_id := issue_id issue;
                product_categories := filtered_categories;
                jira_quarter := fields_status_name issue;
                jira_link := permalink issue;
                beta := beta_flag |}) in
  (if include_beta then attr_is_Beta beta_attr else Ok false)
  ≫= λ include_and_beta : bool,
  if include_and_beta then
    emit true
  else
    (if negb include_beta then attr_is_Beta beta_attr else Ok false)
    ≫= λ exclude_and_beta : bool,
    if exclude_and_beta then
      Ok None
    else
      emit false.

Fixpoint roadmap_issues_loop
    (mode prefix : string) (include_beta : bool) (beta_attribute_name : string)
    (roadmap_issue_ids : list jira_issue)
    (roadmap_issues : list JiraRoadmapIssue) : result (list JiraRoadmapIssue) :=
  match roadmap_issue_ids with
  | [] => Ok roadmap_issues
  | issue :: rest =>
      r ← roadmap_issue_of mode prefix include_beta beta_attribute_name issue;
      roadmap_issues_loop mode prefix include_beta beta_attribute_name rest
        (match r with
         | Some ri => roadmap_issues ++ [ri]
         | None => roadmap_issues
         end)
  end.

Definition jql_filter (jira_project issue_type : string) : string :=
  "project = " +:+ jira_project +:+ " and issuetype = " +:+
  dquote +:+ issue_type +:+ dquote.

Definition get_roadmap_issues (jira_service : JIRA)
    (jira_project issue_type product_category_mode product_category_prefix : string)
    (include_beta : bool) (beta_attribute_name : string)
  : result (list JiraRoadmapIssue) :=
  let roadmap_issue_ids :=
    search_issues jira_service (jql_filter jira_project issue_type) in
  match roadmap_issue_ids with
  | _ :: _ =>
      roadmap_issues_loop product_category_mode product_category_prefix
        include_beta beta_attribute_name roadmap_issue_ids []
  | [] => Raise NotFoundError
  end.

(** ** Request builders

    Two effects are threaded through the builders and the assembly.
    [str(uuid.uuid4())] draws a fresh identifier: [uuid4_draw k] is the value
    of the [k]-th draw of the run and [draws] counts the draws made so far.
    [updateSlides] sends a body to the presentation service: [requests_sent]
    lists what was sent, oldest first.  An exception leaves the world as it
    was when it was raised. *)

Record world : Type := {
  draws : nat;
  requests_sent : list (string * json)
}.

Definition Gen (A : Type) : Type := world → result A * world.

#[global] Instance Gen_ret : MRet Gen := λ A a w, (Ok a, w).

#[global] Instance Gen_bind : MBind Gen :=
  λ A B f m w,
    match m w with
    | (Ok a, w') => f a w'
    | (Raise e, w') => (Raise e, w')
    end.

Definition lift {A} (r : result A) : Gen A := λ w, (r, w).

(** What [populate_roadmap_with_issues] does at one
    [roadmap_shapes.append(roadmap_shape)]: the slide, issue and column it
    is in and the arguments it passes to [gen_roadmap_item_req] ([box]),
    with the request body and identifier it gets back. *)
Record placed_box : Type := {
  pb_slide : RoadmapSlide;
  pb_issue : JiraRoadmapIssue;
  pb_col_num : nat;
  pb_width : Q;
  pb_locx : Q;
  pb_locy : Q;
  pb_description : string
}.

Record placement : Type := {
  box : placed_box;
  roadmap_shape : list json;
  shape_id : string
}.

Section Builders.

Variable uuid4_draw : nat → string.

(** [list(set(categories))]: [set_iteration l] lists the distinct
    elements of [l] in the order the set is iterated, which the language
    does not fix. *)
Variable set_iteration : list string → list string.

Definition uuid4 : Gen string :=
  λ w, (Ok (uuid4_draw (draws w)),
        {| draws := S (draws w); requests_sent := requests_sent w |}).

(** [updateSlides(service, presentationId=..., body=...)]: the service is
    the function from the call to its reply. *)
Definition updateSlides (service : string → json → result json)
    (presentationId : string) (body : json) : Gen json :=
  λ w, (service presentationId body,
        {| draws := draws w;
           requests_sent := requests_sent w ++ [(presentationId, body)] |}).

(** [gen_header_slide_req] *)
Definition gen_header_slide_req (title : string) : Gen (list json * string) :=
  titleId ← uuid4;
  slideId ← uuid4;
  let request_body := [
    JObj [("createSlide", JObj [
      ("objectId", JStr slideId);
      ("slideLayoutReference", JObj [("predefinedLayout", JStr "SECTION_HEADER")]);
      ("placeholderIdMappings", JArr [
        JObj [("objectId", JStr titleId);
              ("layoutPlaceholder",
               JObj [("type", JStr "TITLE"); ("index", JNum 0)])]])])];
    JObj [("insertText", JObj [("objectId", JStr titleId); ("text", JStr title)])]
  ] in
  mret (request_body, slideId).

(** [gen_roadmap_item_req]: the box of one roadmap item, and its badge
    when [beta] holds. *)
Definition beta_flag_req_body (page_id : string) (width locx locy : Q)
    (roadmap_box_config : roadmap_box_config)
    (beta_flag_element_id : string) : list json := [
  Json.createShape beta_flag_element_id "FLOW_CHART_TERMINATOR" page_id
    (rb_height roadmap_box_config / 4.5)%Q
    (width / 7)%Q
    (locx + width * 6 / 7 - 2)%Q
    (locy + 2)%Q;
  JObj [("updateShapeProperties", JObj [
    ("fields", JStr ("contentAlignment, " +:+ spaces 24 +:+
                     "outline.outlineFill.solidFill.color.themeColor, " +:+
                     spaces 24 +:+
                     "shapeBackgroundFill.solidFill.color.themeColor"));
    ("objectId", JStr beta_flag_element_id);
    ("shapeProperties", JObj [
      ("contentAlignment", JStr "MIDDLE");
      ("outline", JObj [("outlineFill",
         Json.themeColor (rb_beta_label_outline_color roadmap_box_config))]);
      ("shapeBackgroundFill",
         Json.themeColor (rb_beta_label_color roadmap_box_config))])])];
  Json.insertText beta_flag_element_id "beta";
  JObj [("updateTextStyle", JObj [
    ("fields", JStr "bold, fontFamily, fontSize.magnitude, fontSize.unit, foregroundColor.opaqueColor.themeColor");
    ("objectId", JStr beta_flag_element_id);
    ("style", JObj [
      ("fontFamily", JStr "Manrope");
      ("fontSize", Json.pt (rb_beta_label_font_size roadmap_box_config));
      ("foregroundColor", JObj [("opaqueColor", JObj [
         ("themeColor", JStr (rb_beta_label_font_color roadmap_box_config))])])])])];
  Json.updateParagraphStyle beta_flag_element_id "CENTER"
].

Definition item_req_body (page_id : string) (width locx locy : Q)
    (roadmap_box_config : roadmap_box_config)
    (tagline description link element_id : string) : list json := [
  Json.createShape element_id (rb_shape_type roadmap_box_config) page_id
    (rb_height roadmap_box_config) width locx locy;
  JObj [("updateShapeProperties", JObj [
    ("fields", JStr ("contentAlignment, " +:+ spaces 20 +:+
                     "outline.outlineFill.solidFill.color.themeColor, " +:+
                     spaces 20 +:+ "link.url, " +:+ spaces 20 +:+
                     "shapeBackgroundFill.solidFill.color.themeColor"));
    ("objectId", JStr element_id);
    ("shapeProperties", JObj [
      ("contentAlignment", JStr "TOP");
      ("outline", JObj [("outlineFill",
         Json.themeColor (rb_outline_color roadmap_box_config))]);
      ("link", JObj [("url", JStr link)]);
      ("shapeBackgroundFill",
         Json.themeColor (rb_fill_color roadmap_box_config))])])];
  Json.insertText element_id (tagline +:+ newline +:+ description);
  JObj [("updateTextStyle", JObj [
    ("fields", JStr "bold, fontFamily, fontSize.magnitude, fontSize.unit");
    ("objectId", JStr element_id);
    ("style", JObj [
      ("fontFamily", JStr "Manrope");
      ("fontSize", Json.pt (rb_font_size roadmap_box_config))])])];
  Json.updateParagraphStyle element_id "START";
  JObj [("updateTextStyle", JObj [
    ("fields", JStr "bold");
    ("objectId", JStr element_id);
    ("style", JObj [("bold", JBool true)]);
    ("textRange", JObj [
      ("endIndex", JNum (Qnat (String.length tagline)));
      ("startIndex", JNum 0);
      ("type", JStr "FIXED_RANGE")])])]
].

Definition gen_roadmap_item_req (page_id : string) (width locx locy : Q)
    (roadmap_box_config : roadmap_box_config)
    (tagline description link : string) (beta : bool)
  : Gen (list json * string) :=
  element_id ← uuid4;
  let request_body :=
    item_req_body page_id width locx locy roadmap_box_config
      tagline description link element_id in
  if beta then
    beta_flag_element_id ← uuid4;
    mret (request_body ++
            beta_flag_req_body page_id width locx locy roadmap_box_config
              beta_flag_element_id,
          element_id)
  else
    mret (request_body, element_id).


(** [gen_roadmap_slide_req]: the skeleton of one roadmap slide. *)
Definition alpha_fields : string :=
  "contentAlignment, " +:+ spaces 20 +:+
  "outline.outlineFill.solidFill.alpha, " +:+ spaces 20 +:+
  "shapeBackgroundFill.solidFill.color.themeColor".

Definition quarter_marker_req (slide_id : string)
    (quarter_marker_config : quarter_marker_config)
    (quarter_locx quarter_width text_box_width timeline_arrow_start_locy : Q)
    (col_num : nat) (column : column)
    (quarter_marker_element_id quarter_textbox_element_id : string)
  : list json := [
  Json.createShape quarter_marker_element_id
    (qm_shape_type quarter_marker_config) slide_id
    (qm_height quarter_marker_config) (qm_width quarter_marker_config)
    (quarter_locx + quarter_width / 2 - qm_width quarter_marker_config / 2
       + (quarter_width * Qnat col_num))%Q
    (timeline_arrow_start_locy - qm_height quarter_marker_config / 2)%Q;
  JObj [("updateShapeProperties", JObj [
    ("fields", JStr ("outline.outlineFill.solidFill.alpha, " +:+ spaces 24 +:+
                     "shapeBackgroundFill.solidFill.color.themeColor"));
    ("objectId", JStr quarter_marker_element_id);
    ("shapeProperties", JObj [
      ("outline", JObj [("outlineFill", Json.alpha0)]);
      ("shapeBackgroundFill",
         Json.themeColor (qm_color quarter_marker_config))])])];
  Json.createShape quarter_textbox_element_id "RECTANGLE" slide_id
    (qm_height quarter_marker_config) text_box_width
    (quarter_locx + quarter_width / 2 - text_box_width / 2
       + (quarter_width * Qnat col_num))%Q
    (timeline_arrow_start_locy - qm_height quarter_marker_config * 1.75)%Q;
  JObj [("updateShapeProperties", JObj [
    ("fields", JStr ("outline.outlineFill.solidFill.alpha, " +:+ spaces 24 +:+
                     "shapeBackgroundFill.solidFill.alpha"));
    ("objectId", JStr quarter_textbox_element_id);
    ("shapeProperties", JObj [
      ("outline", JObj [("outlineFill", Json.alpha0)]);
      ("shapeBackgroundFill", Json.alpha0)])])];
  Json.insertText quarter_textbox_element_id (label column);
  JObj [("updateTextStyle", JObj [
    ("fields", JStr "bold, fontFamily, fontSize.magnitude, foregroundColor.opaqueColor.themeColor");
    ("objectId", JStr quarter_textbox_element_id);
    ("style", JObj [
      ("bold", JBool true);
      ("fontFamily", JStr (qm_font quarter_marker_config));
      ("fontSize", Json.pt (qm_font_size quarter_marker_config));
      ("foregroundColor", JObj [("opaqueColor", JObj [
         ("themeColor", JStr (qm_font_color quarter_marker_config))])])])])]
].

(** The loop over [enumerate(columns_config)]. *)
Fixpoint quarter_marker_loop (slide_id : string)
    (quarter_marker_config : quarter_marker_config)
    (quarter_locx quarter_width text_box_width timeline_arrow_start_locy : Q)
    (col_num : nat) (columns_config : list column) : Gen (list json) :=
  match columns_config with
  | [] => mret []
  | column :: rest =>
      quarter_marker_element_id ← uuid4;
      quarter_textbox_element_id ← uuid4;
      reqs ← quarter_marker_loop slide_id quarter_marker_config
               quarter_locx quarter_width text_box_width
               timeline_arrow_start_locy (S col_num) rest;
      mret (quarter_marker_req slide_id quarter_marker_config
              quarter_locx quarter_width text_box_width
              timeline_arrow_start_locy col_num column
              quarter_marker_element_id quarter_textbox_element_id ++ reqs)
  end.

Definition gen_roadmap_slide_req (title : string)
    (roadmap_slide_config : roadmap_slide_config) : Gen (list json * string) :=
  left_header_config ←
    lift (subscript "left_header" (cfg_left_header roadmap_slide_config));
  left_main_config ←
    lift (subscript "left_main" (cfg_left_main roadmap_slide_config));
  timeline_arrow_config ←
    lift (subscript "timeline_arrow" (cfg_timeline_arrow roadmap_slide_config));
  quarter_marker_config ←
    lift (subscript "quarter_marker" (cfg_quarter_marker roadmap_slide_config));
  quarters_config ←
    lift (subscript "quarters" (cfg_quarters roadmap_slide_config));
  roadmap_box_config ←
    lift (subscript "roadmap_box" (cfg_roadmap_box roadmap_slide_config));
  columns_config ←
    lift (subscript "columns" (cfg_columns roadmap_slide_config));
  title_id ← uuid4;
  slide_id ← uuid4;
  left_header_element_id ← uuid4;
  left_main_element_id ← uuid4;
  let left_main_locx := lh_locx left_header_config in
  let timeline_arrow_start_locx :=
    (lh_locx left_header_config + lh_width left_header_config)%Q in
  let timeline_arrow_start_locy :=
    (lh_locy left_header_config + lh_height left_header_config / 2)%Q in
  timeline_arrow_element_id ← uuid4;
  let slide_req := [
    JObj [("createSlide", JObj [
      ("objectId", JStr slide_id);
      ("slideLayoutReference",
       JObj [("predefinedLayout", JStr "TITLE_AND_TWO_COLUMNS")]);
      ("placeholderIdMappings", JArr [
        JObj [("objectId", JStr title_id);
              ("layoutPlaceholder",
               JObj [("type", JStr "TITLE"); ("index", JNum 0)])]])])]] in
  let title_req :=
    [JObj [("insertText", JObj [("objectId", JStr title_id);
                                ("text", JStr title)])]] in
  let left_main_req := [
    Json.createShape left_main_element_id (lm_shape_type left_main_config)
      slide_id (lm_height left_main_config) (lm_width left_main_config)
      left_main_locx (lm_locy left_main_config);
    JObj [("updateShapeProperties", JObj [
      ("fields", JStr alpha_fields);
      ("objectId", JStr left_main_element_id);
      ("shapeProperties", JObj [
        ("contentAlignment", JStr "TOP");
        ("outline", JObj [("outlineFill", Json.alpha0)]);
        ("shapeBackgroundFill",
           Json.themeColor (lm_color left_main_config))])])];
    Json.insertText left_main_element_id
      (newline +:+ newline +:+ newline +:+ lm_text left_main_config);
    JObj [("updateTextStyle", JObj [
      ("fields", JStr "fontFamily, fontSize.magnitude, fontSize.unit");
      ("objectId", JStr left_main_element_id);
      ("style", JObj [
        ("fontFamily", JStr "Manrope");
        ("fontSize", Json.pt (lm_font_size left_main_config))])])];
    Json.updateParagraphStyle left_main_element_id "START"] in
  let left_header_req := [
    Json.createShape left_header_element_id (lh_shape_type left_header_config)
      slide_id (lh_height left_header_config) (lh_width left_header_config)
      (lh_locx left_header_config) (lh_locy left_header_config);
    JObj [("updateShapeProperties", JObj [
      ("fields", JStr alpha_fields);
      ("objectId", JStr left_header_element_id);
      ("shapeProperties", JObj [
        ("contentAlignment", JStr "TOP");
        ("outline", JObj [("outlineFill", Json.alpha0)]);
        ("shapeBackgroundFill",
           Json.themeColor (lh_color left_header_config))])])];
    Json.insertText left_header_element_id title;
    JObj [("updateTextStyle", JObj [
      ("fields", JStr ("bold, fontFamily, fontSize.magnitude, fontSize.unit, " +:+
                       spaces 20 +:+ "foregroundColor.opaqueColor.themeColor"));
      ("objectId", JStr left_header_element_id);
      ("style", JObj [
        ("bold", JBool true);
        ("fontFamily", JStr "Manrope");
        ("fontSize", Json.pt (lh_font_size left_header_config));
        ("foregroundColor", JObj [("opaqueColor", JObj [
           ("themeColor", JStr "LIGHT1")])])])])];
    Json.updateParagraphStyle left_header_element_id "CENTER"] in
  let timeline_arrow_req := [
    JObj [("createLine", JObj [
      ("objectId", JStr timeline_arrow_element_id);
      ("lineCategory", JStr "STRAIGHT");
      ("elementProperties", JObj [
        ("pageObjectId", JStr slide_id);
        ("size", JObj [("height", Json.pt 1);
                       ("width", Json.pt (ta_width timeline_arrow_config))]);
        ("transform",
         Json.transform timeline_arrow_start_locx timeline_arrow_start_locy)])])];
    JObj [("updateLineProperties", JObj [
      ("fields", JStr "endArrow, lineFill.solidFill.color.themeColor, weight");
      ("objectId", JStr timeline_arrow_element_id);
      ("lineProperties", JObj [
        ("endArrow", JStr "FILL_ARROW");
        ("lineFill", Json.themeColor (ta_color timeline_arrow_config));
        ("weight", Json.pt (ta_weight timeline_arrow_config))])])]] in
  quarter_width ←
    lift (py_div (ta_width timeline_arrow_config
                  - rb_x_padding roadmap_box_config * 2)%Q
                 (Qnat (length columns_config)));
  let quarter_locx :=
    (timeline_arrow_start_locx + rb_x_padding roadmap_box_config)%Q in
  let text_box_width := 200%Q in
  quarter_marker_reqs ←
    quarter_marker_loop slide_id quarter_marker_config quarter_locx
      quarter_width text_box_width timeline_arrow_start_locy 0 columns_config;
  let request_body :=
    slide_req ++ title_req ++ left_main_req ++ left_header_req ++
    timeline_arrow_req ++ quarter_marker_reqs in
  mret (request_body, slide_id).

(** [get_unique_product_groups] *)
Definition get_unique_product_groups (roadmap_issues : list JiraRoadmapIssue)
  : list string :=
  set_iteration (concat (map product_categories roadmap_issues)).

(** [generate_roadmap_slides] *)
Fixpoint roadmap_slides_loop (roadmap_slide_config : roadmap_slide_config)
    (product_categories : list string) : Gen (list json * list RoadmapSlide) :=
  match product_categories with
  | [] => mret ([], [])
  | category :: rest =>
      '(header_slide_req, header_slide_id) ← gen_header_slide_req category;
      '(roadmap_slide_req, roadmap_slide_id) ←
        gen_roadmap_slide_req category roadmap_slide_config;
      '(slide_reqs, slides) ← roadmap_slides_loop roadmap_slide_config rest;
      mret (header_slide_req ++ roadmap_slide_req ++ slide_reqs,
            {| title := category;
               google_slide_id := roadmap_slide_id;
               product_category := category |} :: slides)
  end.

Definition generate_roadmap_slides (presentation_id : string)
    (slides_service : string → json → result json)
    (product_categories : list string)
    (roadmap_slide_config : roadmap_slide_config) : Gen (list RoadmapSlide) :=
  '(slide_reqs, slides) ←
    roadmap_slides_loop roadmap_slide_config product_categories;
  res ← updateSlides slides_service presentation_id
          (JObj [("requests", JArr slide_reqs)]);
  mret slides.

(** [populate_roadmap_with_issues].  The three nested loops thread the
    column dictionaries, whose ['count'] entries they update in place. *)
Fixpoint place_in_columns (roadmap_box_config : roadmap_box_config)
    (roadmap_box_width roadmap_box_locx roadmap_box_locy : Q)
    (slide : RoadmapSlide) (issue : JiraRoadmapIssue)
    (col_num : nat) (columns_config : list column)
  : Gen (list column * list placement) :=
  match columns_config with
  | [] => mret ([], [])
  | col :: rest =>
      if bool_decide (jira_quarter issue ∈ jira_statuses col) then
        let locx :=
          (roadmap_box_locx
           + (roadmap_box_width + rb_x_padding roadmap_box_config)
             * Qnat col_num)%Q in
        let locy :=
          (inject_Z (count col)
           * (rb_height roadmap_box_config + rb_y_padding roadmap_box_config)
           + roadmap_box_locy)%Q in
        let col' := set_count (count col + 1) col in
        let b :=
          {| pb_slide := slide; pb_issue := issue; pb_col_num := col_num;
             pb_width := roadmap_box_width; pb_locx := locx; pb_locy := locy;
             pb_description :=
               slice_to (rb_description_length roadmap_box_config)
                        (description issue) |} in
        '(roadmap_shape, shape_id) ←
          gen_roadmap_item_req (google_slide_id slide) (pb_width b)
            (pb_locx b) (pb_locy b) roadmap_box_config (summary issue)
            (pb_description b) (jira_link issue) (beta issue);
        '(rest', placed) ←
          place_in_columns roadmap_box_config roadmap_box_width
            roadmap_box_locx roadmap_box_locy slide issue (S col_num) rest;
        mret (col' :: rest',
              {| box := b; roadmap_shape := roadmap_shape;
                 shape_id := shape_id |} :: placed)
      else
        '(rest', placed) ←
          place_in_columns roadmap_box_config roadmap_box_width
            roadmap_box_locx roadmap_box_locy slide issue (S col_num) rest;
        mret (col :: rest', placed)
  end.

Fixpoint place_issues (roadmap_box_config : roadmap_box_config)
    (roadmap_box_width roadmap_box_locx roadmap_box_locy : Q)
    (slide : RoadmapSlide) (jira_roadmap_issues : list JiraRoadmapIssue)
    (columns_config : list column) : Gen (list column * list placement) :=
  match jira_roadmap_issues with
  | [] => mret (columns_config, [])
  | issue :: rest =>
      if bool_decide (product_category slide ∈ product_categories issue) then
        '(columns_config', placed) ←
          place_in_columns roadmap_box_config roadmap_box_width
            roadmap_box_locx roadmap_box_locy slide issue 0 columns_config;
        '(columns_config'', placed') ←
          place_issues roadmap_box_config roadmap_box_width roadmap_box_locx
            roadmap_box_locy slide rest columns_config';
        mret (columns_config'', placed ++ placed')
      else
        place_issues roadmap_box_config roadmap_box_width roadmap_box_locx
          roadmap_box_locy slide rest columns_config
  end.

Fixpoint place_on_slides (roadmap_box_config : roadmap_box_config)
    (roadmap_box_width roadmap_box_locx roadmap_box_locy : Q)
    (roadmap_slides : list RoadmapSlide)
    (jira_roadmap_issues : list JiraRoadmapIssue)
    (columns_config : list column) : Gen (list column * list placement) :=
  match roadmap_slides with
  | [] => mret (columns_config, [])
  | slide :: rest =>
      let columns_reset := map (set_count 0) columns_config in
      '(columns_config', placed) ←
        place_issues roadmap_box_config roadmap_box_width roadmap_box_locx
          roadmap_box_locy slide jira_roadmap_issues columns_reset;
      '(columns_config'', placed') ←
        place_on_slides roadmap_box_config roadmap_box_width roadmap_box_locx
          roadmap_box_locy rest jira_roadmap_issues columns_config';
      mret (columns_config'', placed ++ placed')
  end.

(** The body of [populate_roadmap_with_issues] up to its [return]: the
    column dictionaries as it leaves them and what it appended to
    [roadmap_shapes], in order. *)
Definition roadmap_placements (roadmap_slides : list RoadmapSlide)
    (roadmap_slide_config : roadmap_slide_config)
    (jira_roadmap_issues : list JiraRoadmapIssue)
  : Gen (list column * list placement) :=
  roadmap_box_config ←
    lift (subscript "roadmap_box" (cfg_roadmap_box roadmap_slide_config));
  arrow_config ←
    lift (subscript "timeline_arrow" (cfg_timeline_arrow roadmap_slide_config));
  left_header_config ←
    lift (subscript "left_header" (cfg_left_header roadmap_slide_config));
  columns_config ←
    lift (subscript "columns" (cfg_columns roadmap_slide_config));
  roadmap_box_width ←
    lift (py_div (ta_width arrow_config
                  - rb_x_padding roadmap_box_config
                    * (Qnat (length columns_config) + 1))%Q
                 (Qnat (length columns_config)));
  let roadmap_box_locx :=
    (lh_locx left_header_config + lh_width left_header_config
     + rb_x_padding roadmap_box_config)%Q in
  let roadmap_box_locy :=
    (lh_locy left_header_config + lh_height left_header_config)%Q in
  place_on_slides roadmap_box_config roadmap_box_width roadmap_box_locx
    roadmap_box_locy roadmap_slides jira_roadmap_issues columns_config.

Definition populate_roadmap_with_issues (presentation_id : string)
    (slides_service : string → json → result json)
    (roadmap_slides : list RoadmapSlide)
    (roadmap_slide_config : roadmap_slide_config)
    (jira_roadmap_issues : list JiraRoadmapIssue) : Gen json :=
  '(_, placed) ←
    roadmap_placements roadmap_slides roadmap_slide_config jira_roadmap_issues;
  let roadmap_shapes := map (λ p, JArr (roadmap_shape p)) placed in
  updateSlides slides_service presentation_id
    (JObj [("requests", JArr roadmap_shapes)]).

(** [generate_roadmap_deck] *)
Definition generate_roadmap_deck (jira_service : JIRA)
    (google_service : string → json → result json)
    (roadmap_slide_config : roadmap_slide_config)
    (presentation_id : string) : Gen string :=
  kwargs ←
    lift (subscript "jira_roadmap_issues"
            (cfg_jira_roadmap_issues roadmap_slide_config));
  jira_roadmap_issues ←
    lift (get_roadmap_issues jira_service (jira_project kwargs)
            (issue_type kwargs) (product_category_mode kwargs)
            (product_category_prefix kwargs) (include_beta kwargs)
            (beta_attribute_name kwargs));
  let product_categories := get_unique_product_groups jira_roadmap_issues in
  slides ←
    generate_roadmap_slides presentation_id google_service
      product_categories roadmap_slide_config;
  res_populate_roadmap ←
    populate_roadmap_with_issues presentation_id google_service slides
      roadmap_slide_config jira_roadmap_issues;
  mret ("Generated " +:+ pretty (length slides * 2)%nat +:+ " slides, " +:+
        pretty (length product_categories) +:+
        " product categories, and " +:+
        pretty (length jira_roadmap_issues) +:+ " roadmap items.").

End Builders.

(** ** Reading the emitted requests *)

Definition created_shapes (body : list json) : list json :=
  filter (λ j, Is_true (Json.has "createShape" j)) body.

Definition shape_objectId (j : json) : option string :=
  Json.str (Json.path ["createShape"; "objectId"] j).

Definition shape_translateX (j : json) : option Q :=
  Json.num (Json.path
    ["createShape"; "elementProperties"; "transform"; "translateX"] j).

Definition shape_translateY (j : json) : option Q :=
  Json.num (Json.path
    ["createShape"; "elementProperties"; "transform"; "translateY"] j).

Definition shape_width (j : json) : option Q :=
  Json.num (Json.path
    ["createShape"; "elementProperties"; "size"; "width"; "magnitude"] j).

(** The texts inserted by a body, in order. *)
Definition inserted_texts (body : list json) : list string :=
  omap (λ j, Json.str (Json.path ["insertText"; "text"] j)) body.



(** ** The allocation, without the request bodies

    The boxes [place_in_columns], [place_issues] and [place_on_slides]
    place, computed without drawing identifiers, and the columns as one
    issue leaves them. *)

Definition box_at (roadmap_box_config : roadmap_box_config)
    (roadmap_box_width roadmap_box_locx roadmap_box_locy : Q)
    (slide : RoadmapSlide) (issue : JiraRoadmapIssue)
    (col_num : nat) (col : column) : placed_box :=
  {| pb_slide := slide; pb_issue := issue; pb_col_num := col_num;
     pb_width := roadmap_box_width;
     pb_locx := (roadmap_box_locx
                 + (roadmap_box_width + rb_x_padding roadmap_box_config)
                   * Qnat col_num)%Q;
     pb_locy := (inject_Z (count col)
                 * (rb_height roadmap_box_config
                    + rb_y_padding roadmap_box_config)
                 + roadmap_box_locy)%Q;
     pb_description :=
       slice_to (rb_description_length roadmap_box_config)
                (description issue) |}.

Definition accepts (col : column) (issue : JiraRoadmapIssue) : bool :=
  bool_decide (jira_quarter issue ∈ jira_statuses col).

Definition on_slide (slide : RoadmapSlide) (issue : JiraRoadmapIssue) : bool :=
  bool_decide (product_category slide ∈ product_categories issue).

Fixpoint boxes_in_columns (mk : nat → column → placed_box)
    (issue : JiraRoadmapIssue) (col_num : nat) (columns_config : list column)
  : list placed_box :=
  match columns_config with
  | [] => []
  | col :: rest =>
      if accepts col issue
      then mk col_num col :: boxes_in_columns mk issue (S col_num) rest
      else boxes_in_columns mk issue (S col_num) rest
  end.

Definition bump (issue : JiraRoadmapIssue) (columns_config : list column)
  : list column :=
  map (λ col, if accepts col issue then set_count (count col + 1) col else col)
      columns_config.

Fixpoint boxes_of_issues
    (mk : RoadmapSlide → JiraRoadmapIssue → nat → column → placed_box)
    (slide : RoadmapSlide) (jira_roadmap_issues : list JiraRoadmapIssue)
    (columns_config : list column) : list placed_box :=
  match jira_roadmap_issues with
  | [] => []
  | issue :: rest =>
      if on_slide slide issue
      then boxes_in_columns (mk slide issue) issue 0 columns_config
           ++ boxes_of_issues mk slide rest (bump issue columns_config)
      else boxes_of_issues mk slide rest columns_config
  end.

Definition bump_all (slide : RoadmapSlide)
    (jira_roadmap_issues : list JiraRoadmapIssue)
    (columns_config : list column) : list column :=
  foldl (λ cols issue, if on_slide slide issue then bump issue cols else cols)
        columns_config jira_roadmap_issues.

(** The boxes of one slide: the counters are reset first. *)
Definition boxes_of_slide
    (mk : RoadmapSlide → JiraRoadmapIssue → nat → column → placed_box)
    (jira_roadmap_issues : list JiraRoadmapIssue)
    (columns_config : list column) (slide : RoadmapSlide) : list placed_box :=
  boxes_of_issues mk slide jira_roadmap_issues (map (set_count 0) columns_config).

(** The columns of a configuration that accept an issue, in configured
    order. *)
Fixpoint matching_columns (issue : JiraRoadmapIssue)
    (columns_config : list column) : list nat :=
  match columns_config with
  | [] => []
  | col :: rest =>
      (if accepts col issue then [0%nat] else [])
      ++ map S (matching_columns issue rest)
  end.

(** Where a box was placed: slide, issue and column. *)
Definition key (b : placed_box) : RoadmapSlide * JiraRoadmapIssue * nat :=
  (pb_slide b, pb_issue b, pb_col_num b).


(** Slide, issue and column of every box to place, in the order of the three
    loops: the slides, on each the issues of its category, for each the
    columns that accept its status. *)
Definition placement_keys (roadmap_slides : list RoadmapSlide)
    (jira_roadmap_issues : list JiraRoadmapIssue)
    (columns_config : list column)
  : list (RoadmapSlide * JiraRoadmapIssue * nat) :=
  roadmap_slides ≫= λ slide, jira_roadmap_issues ≫= λ issue,
    if on_slide slide issue
    then (λ c, (slide, issue, c)) <$> matching_columns issue columns_config
    else [].



(** A configuration with all the entries [populate_roadmap_with_issues]
    reads and at least one column. *)
Record populate_config (cfg : roadmap_slide_config)
    (rb : roadmap_box_config) (arrow : timeline_arrow_config)
    (lh : left_header_config) (columns : list column) : Prop := {
  pc_roadmap_box : cfg_roadmap_box cfg = Some rb;
  pc_timeline_arrow : cfg_timeline_arrow cfg = Some arrow;
  pc_left_header : cfg_left_header cfg = Some lh;
  pc_columns : cfg_columns cfg = Some columns;
  pc_nonempty : columns ≠ []
}.

(** The geometry [populate_roadmap_with_issues] derives from it. *)
Definition box_width (rb : roadmap_box_config) (arrow : timeline_arrow_config)
    (columns : list column) : Q :=
  ((ta_width arrow - rb_x_padding rb * (Qnat (length columns) + 1))
   / Qnat (length columns))%Q.

Definition box_origin_x (rb : roadmap_box_config) (lh : left_header_config) : Q :=
  (lh_locx lh + lh_width lh + rb_x_padding rb)%Q.

Definition box_origin_y (lh : left_header_config) : Q :=
  (lh_locy lh + lh_height lh)%Q.

(** A placement carries the body [gen_roadmap_item_req] returns for the
    arguments of its box. *)
Definition built (uuid4_draw : nat → string) (rb : roadmap_box_config)
    (p : placement) : Prop :=
  ∃ w, fst (gen_roadmap_item_req uuid4_draw
              (google_slide_id (pb_slide (box p))) (pb_width (box p))
              (pb_locx (box p)) (pb_locy (box p)) rb
              (summary (pb_issue (box p))) (pb_description (box p))
              (jira_link (pb_issue (box p))) (beta (pb_issue (box p))) w)
       = Ok (roadmap_shape p, shape_id p).

Definition set_quarters (v : option json) (cfg : roadmap_slide_config)
  : roadmap_slide_config :=
  {| cfg_jira_roadmap_issues := cfg_jira_roadmap_issues cfg;
     cfg_left_header := cfg_left_header cfg;
     cfg_left_main := cfg_left_main cfg;
     cfg_timeline_arrow := cfg_timeline_arrow cfg;
     cfg_quarter_marker := cfg_quarter_marker cfg;
     cfg_quarters := v;
     cfg_roadmap_box := cfg_roadmap_box cfg;
     cfg_columns := cfg_columns cfg |}.

(** The keyword arguments [generate_roadmap_deck] passes on. *)
Definition kwargs_of (project itype mode prefix : string) (include_beta : bool)
    (name : string) : jira_roadmap_issues_config :=
  {| jira_project := project; issue_type := itype;
     product_category_mode := mode; product_category_prefix := prefix;
     include_beta := include_beta; beta_attribute_name := name |}.

(** ** Sample inputs *)

Definition sample_uuid (n : nat) : string := "id-" +:+ pretty n.

Definition sample_world : world := {| draws := 0; requests_sent := [] |}.

Definition sample_box : roadmap_box_config :=
  {| rb_shape_type := "ROUND_RECTANGLE"; rb_height := 60; rb_x_padding := 20;
     rb_y_padding := 10; rb_description_length := 12; rb_font_size := 8;
     rb_fill_color := "LIGHT2"; rb_outline_color := "DARK1";
     rb_beta_label_color := "ACCENT1";
     rb_beta_label_outline_color := "ACCENT2";
     rb_beta_label_font_size := 6; rb_beta_label_font_color := "LIGHT1" |}.

Definition sample_arrow : timeline_arrow_config :=
  {| ta_width := 800; ta_color := "DARK1"; ta_weight := 2 |}.

Definition sample_header : left_header_config :=
  {| lh_shape_type := "RECTANGLE"; lh_locx := 30; lh_locy := 100;
     lh_width := 150; lh_height := 40; lh_color := "DARK2";
     lh_font_size := 14 |}.

Definition sample_main : left_main_config :=
  {| lm_shape_type := "RECTANGLE"; lm_locy := 140; lm_width := 150;
     lm_height := 250; lm_color := "LIGHT2"; lm_text := "Roadmap";
     lm_font_size := 10 |}.

Definition sample_marker : quarter_marker_config :=
  {| qm_shape_type := "ELLIPSE"; qm_width := 12; qm_height := 12;
     qm_color := "ACCENT1"; qm_font := "Manrope"; qm_font_size := 10;
     qm_font_color := "DARK1" |}.

Definition sample_kwargs : jira_roadmap_issues_config :=
  kwargs_of "RM" "Initiative" "components" "Product: " true "customfield_10042".

(** Four columns; the first still holds a counter from an earlier run. *)
Definition sample_columns : list column :=
  [ {| label := "Q1"; jira_statuses := ["Q1"]; count := 3 |};
    {| label := "Q2"; jira_statuses := ["Q2"]; count := 0 |};
    {| label := "Q3"; jira_statuses := ["Q3"]; count := 0 |};
    {| label := "Q4"; jira_statuses := ["Q4"; "Later"]; count := 0 |} ].

(** Two columns that both accept the status "In Progress". *)
Definition overlapping_columns : list column :=
  [ {| label := "Now"; jira_statuses := ["In Progress"; "In Review"];
       count := 0 |};
    {| label := "Next"; jira_statuses := ["Selected"; "In Progress"];
       count := 0 |} ].

(** A configuration with the documented entries: no ['quarters']. *)
Definition config_with (columns : list column) : roadmap_slide_config :=
  {| cfg_jira_roadmap_issues := Some sample_kwargs;
     cfg_left_header := Some sample_header;
     cfg_left_main := Some sample_main;
     cfg_timeline_arrow := Some sample_arrow;
     cfg_quarter_marker := Some sample_marker;
     cfg_quarters := None;
     cfg_roadmap_box := Some sample_box;
     cfg_columns := Some columns |}.

Definition sample_config : roadmap_slide_config := config_with sample_columns.



Definition sample_slide : RoadmapSlide :=
  {| title := "Search"; google_slide_id := "slide-1";
     product_category := "Search" |}.

Definition roadmap_item (key status text : string) (is_beta : bool)
  : JiraRoadmapIssue :=
  {| jira_id := key; product_categories := ["Search"]; jira_quarter := status;
     jira_link := "https://jira.example/browse/" +:+ key;
     summary := "Item " +:+ key; description := text; beta := is_beta |}.

Definition sample_issues : list JiraRoadmapIssue :=
  [ roadmap_item "RM-1" "Q1" "Rebuild the index nightly" false;
    roadmap_item "RM-2" "Q1" "Typo tolerance" true;
    roadmap_item "RM-3" "Q2" "Synonyms" false;
    roadmap_item "RM-4" "Q1" "" false;
    roadmap_item "RM-5" "Backlog" "Not scheduled" false ].

Definition raw_issue (key : string) (attributes : gmap string custom_field)
  : jira_issue :=
  {| issue_id := key; permalink := "https://jira.example/browse/" +:+ key;
     fields_summary := "Item " +:+ key; fields_description := None;
     fields_status_name := "Q1";
     fields_components := ["Product: Search"; "Internal"];
     fields_labels := ["Product: Billing"];
     fields_attributes := attributes |}.

Definition issue_plain : jira_issue :=
  raw_issue "RM-1" {[ "customfield_10042" := PyNone ]}.

Definition issue_beta : jira_issue :=
  raw_issue "RM-2" {[ "customfield_10042" := CustomFieldOption "Beta" ]}.

(** An issue whose fields do not have the configured attribute at all. *)
Definition issue_without_attribute : jira_issue := raw_issue "RM-3" ∅.

(** The attribute is a text field holding "Beta", not an option. *)
Definition issue_with_text_attribute : jira_issue :=
  raw_issue "RM-4" {[ "customfield_10042" := PyStr "Beta" ]}.

Definition sample_jira : JIRA :=
  {| search_issues := λ _, [issue_plain; issue_beta] |}.

Definition empty_jira : JIRA := {| search_issues := λ _, [] |}.


(** ** More readings of the inputs and outputs *)

(** The attribute of the configured name is an option of value "Beta". *)
Definition is_Beta_issue (name : string) (issue : jira_issue) : bool :=
  match fields_attributes issue !! name with
  | Some attr => value_is_Beta attr
  | None => false
  end.

(** The issue is not one [get_roadmap_issues] skips with [continue]. *)
Definition kept (include_beta : bool) (name : string) (issue : jira_issue)
  : bool :=
  include_beta || negb (is_Beta_issue name issue).

Definition has_dot_value (a : custom_field) : bool :=
  match a with CustomFieldOption _ => true | _ => false end.

(** The issue has the attribute, and the attribute is false or exposes
    [.value]. *)
Definition beta_readable (name : string) (issue : jira_issue) : bool :=
  match fields_attributes issue !! name with
  | Some attr => negb (truthy attr) || has_dot_value attr
  | None => false
  end.

Definition has_attribute (name : string) (issue : jira_issue) : bool :=
  bool_decide (is_Some (fields_attributes issue !! name)).


(** A request is a dictionary with one entry, its kind; the kinds that
    create an element are [createSlide], [createShape] and [createLine]. *)
Definition request_kind (j : json) : option string :=
  match j with JObj [(kind, _)] => Some kind | _ => None end.

Definition request_objectId (j : json) : option string :=
  match j with
  | JObj [(_, payload)] => Json.str (Json.field "objectId" payload)
  | _ => None
  end.

Definition creates (j : json) : bool :=
  match request_kind j with
  | Some kind =>
      bool_decide (kind ∈ ["createSlide"; "createShape"; "createLine"])
  | None => false
  end.

(** The identifiers a request introduces: its own and, for a slide, those
    of the placeholders it maps. *)
Definition created_ids (j : json) : list string :=
  if creates j then
    option_list (request_objectId j)
    ++ match Json.path ["createSlide"; "placeholderIdMappings"] j with
       | Some (JArr mappings) =>
           omap (λ m, Json.str (Json.field "objectId" m)) mappings
       | _ => []
       end
  else [].

(** The page a created shape or line is put on:
    [elementProperties.pageObjectId]. *)
Definition request_pageObjectId (j : json) : option string :=
  match j with
  | JObj [(_, payload)] =>
      Json.str (Json.path ["elementProperties"; "pageObjectId"] payload)
  | _ => None
  end.

(** The identifier a request refers to without creating it: the page of the
    shape or line it creates, the element it writes to otherwise.  Only
    [createSlide] refers to none. *)
Definition target_id (j : json) : option string :=
  if creates j then request_pageObjectId j else request_objectId j.

Definition refers_within (known : list string) (j : json) : Prop :=
  if bool_decide (request_kind j = Some "createSlide") then True
  else match target_id j with Some i => i ∈ known | None => False end.

(** Every request of a body refers to a page or an element that is in
    [known] or was created earlier in the body. *)
Fixpoint created_before_use (known : list string) (body : list json) : Prop :=
  match body with
  | [] => True
  | j :: rest =>
      refers_within known j
      ∧ created_before_use (created_ids j ++ known) rest
  end.

(** The requests of [quarter_marker_loop], given the number [d] of
    identifiers drawn before it. *)
Fixpoint marker_reqs (uuid4_draw : nat → string) (slide_id : string)
    (quarter_marker_config : quarter_marker_config)
    (quarter_locx quarter_width text_box_width timeline_arrow_start_locy : Q)
    (col_num d : nat) (columns_config : list column) : list json :=
  match columns_config with
  | [] => []
  | column :: rest =>
      quarter_marker_req slide_id quarter_marker_config quarter_locx
        quarter_width text_box_width timeline_arrow_start_locy col_num column
        (uuid4_draw d) (uuid4_draw (S d))
      ++ marker_reqs uuid4_draw slide_id quarter_marker_config quarter_locx
           quarter_width text_box_width timeline_arrow_start_locy
           (S col_num) (S (S d)) rest
  end.

(** A configuration with the seven entries [gen_roadmap_slide_req] reads. *)
Record skeleton_config (cfg : roadmap_slide_config)
    (lh : left_header_config) (lm : left_main_config)
    (arrow : timeline_arrow_config) (qm : quarter_marker_config)
    (quarters : json) (rb : roadmap_box_config) (columns : list column)
  : Prop := {
  sc_left_header : cfg_left_header cfg = Some lh;
  sc_left_main : cfg_left_main cfg = Some lm;
  sc_timeline_arrow : cfg_timeline_arrow cfg = Some arrow;
  sc_quarter_marker : cfg_quarter_marker cfg = Some qm;
  sc_quarters : cfg_quarters cfg = Some quarters;
  sc_roadmap_box : cfg_roadmap_box cfg = Some rb;
  sc_columns : cfg_columns cfg = Some columns
}.

(** The width of a column of the skeleton and the left edge of the first. *)
Definition quarter_width_of (rb : roadmap_box_config)
    (arrow : timeline_arrow_config) (columns : list column) : Q :=
  ((ta_width arrow - rb_x_padding rb * 2) / Qnat (length columns))%Q.

Definition quarter_locx_of (rb : roadmap_box_config) (lh : left_header_config)
  : Q :=
  (lh_locx lh + lh_width lh + rb_x_padding rb)%Q.

Definition arrow_start_locy (lh : left_header_config) : Q :=
  (lh_locy lh + lh_height lh / 2)%Q.

(** The identifiers a body creates, in order. *)
Definition body_created_ids (body : list json) : list string :=
  body ≫= created_ids.

(** The identifiers [gen_roadmap_item_req] draws for some boxes: two for
    a beta item, one otherwise. *)
Definition draws_of (boxes : list placed_box) : nat :=
  sum_list_with (λ b, if beta (pb_issue b) then 2%nat else 1%nat) boxes.

(** The column dictionaries after the loop over the slides. *)
Definition final_columns (roadmap_slides : list RoadmapSlide)
    (jira_roadmap_issues : list JiraRoadmapIssue)
    (columns_config : list column) : list column :=
  foldl (λ cols slide,
           bump_all slide jira_roadmap_issues (map (set_count 0) cols))
        columns_config roadmap_slides.

(** No status is accepted by two columns. *)
Definition disjoint_columns (columns_config : list column) : Prop :=
  ∀ c1 c2 col1 col2 status,
    columns_config !! c1 = Some col1 → columns_config !! c2 = Some col2 →
    status ∈ jira_statuses col1 → status ∈ jira_statuses col2 → c1 = c2.

(** ** More sample inputs *)

(** The sample configuration with a ['quarters'] entry. *)
Definition sample_full_config : roadmap_slide_config :=
  set_quarters (Some (JArr [])) sample_config.

Definition config_without_columns : roadmap_slide_config :=
  set_quarters (Some (JArr [])) (config_with []).

(** What [get_roadmap_issues] makes of the issues of [sample_jira]. *)
Definition sample_normalized : list JiraRoadmapIssue :=
  [ {| jira_id := "RM-1"; product_categories := ["Search"];
       jira_quarter := "Q1";
       jira_link := "https://jira.example/browse/RM-1";
       summary := "Item RM-1"; description := ""; beta := false |};
    {| jira_id := "RM-2"; product_categories := ["Search"];
       jira_quarter := "Q1";
       jira_link := "https://jira.example/browse/RM-2";
       summary := "Item RM-2"; description := ""; beta := true |} ].

Definition jira_with_missing_attribute : JIRA :=
  {| search_issues := λ _, [issue_plain; issue_without_attribute] |}.

Definition jira_with_text_attribute : JIRA :=
  {| search_issues :=
       λ _, [issue_plain; issue_with_text_attribute;
             issue_without_attribute] |}.

Definition accepting_service : string → json → result json :=
  λ _ _, Ok (JObj []).

Definition failing_service : string → json → result json :=
  λ _ _, Raise (Exception "HttpError").

(** * Properties *)

(** ** Strings *)

Lemma append_String a s t : String a s +:+ t = String a (s +:+ t).
Proof. reflexivity. Qed.

Lemma str_drop_app p x : str_drop (String.length p) (p +:+ x) = x.
Proof. induction p as [|c p IH]; simpl; auto. Qed.

Lemma startswith_app p x : startswith (p +:+ x) p = true.
Proof.
  unfold startswith. induction p as [|c p IH]; simpl.
  - by destruct x.
  - destruct (ascii_dec c c); [done|congruence].
Qed.

Lemma startswith_inv c p :
  startswith c p = true → c = p +:+ str_drop (String.length p) c.
Proof.
  unfold startswith. revert c.
  induction p as [|a p IH]; intros [|b c] H; simpl in *; try done.
  destruct (ascii_dec a b) as [->|]; [|done].
  rewrite append_String. f_equal. by apply IH.
Qed.






Lemma filter_categories_comprehension prefix cs :
  filter_categories prefix cs =
  map (str_drop (String.length prefix)) (filter (λ c, Is_true (startswith c prefix)) cs).
Proof.
  induction cs as [|c cs IH]; simpl; [done|].
  destruct (startswith c prefix) eqn:E.
  - rewrite filter_cons_True by (by apply Is_true_true). simpl. by f_equal.
  - rewrite filter_cons_False by (by apply Is_true_false). done.
Qed.

Lemma elem_of_filter_categories prefix cs x :
  x ∈ filter_categories prefix cs ↔ prefix +:+ x ∈ cs.
Proof.
  rewrite filter_categories_comprehension, list_elem_of_fmap. split.
  - intros (c & -> & Hc). apply list_elem_of_filter in Hc as [Hs Hc].
    apply Is_true_true in Hs. by rewrite <- startswith_inv.
  - intros H. exists (prefix +:+ x). split; [by rewrite str_drop_app|].
    apply list_elem_of_filter. split; [|done]. apply Is_true_true, startswith_app.
Qed.

(** ** The issue normalizer *)

Lemma attr_is_Beta_Ok attr b :
  attr_is_Beta attr = Ok b → b = value_is_Beta attr.
Proof.
  unfold attr_is_Beta. destruct (truthy attr) eqn:Et.
  - destruct attr; cbn; intros [= <-]; done.
  - intros [= <-]. destruct attr; cbn in *; try done.
Qed.

Lemma attr_is_Beta_Raise attr e :
  attr_is_Beta attr = Raise e ↔
  e = AttributeError "value" ∧ truthy attr = true
  ∧ ∀ v, attr ≠ CustomFieldOption v.
Proof.
  unfold attr_is_Beta. destruct (truthy attr) eqn:Et.
  - destruct attr; cbn; split;
      try (intros [= <-]; by repeat split);
      try (by intros (-> & _ & _));
      try done.
    intros (_ & _ & H). by destruct (H value).
  - split; [done|]. by intros (_ & ? & _).
Qed.

Section Normalizer.

Variables (mode prefix : string) (include_beta : bool) (name : string).

Lemma roadmap_issue_of_unknown_mode issue :
  mode ≠ "components" → mode ≠ "labels" →
  roadmap_issue_of mode prefix include_beta name issue
  = Raise (ConfigurationError mode).
Proof.
  intros H1 H2. unfold roadmap_issue_of.
  apply String.eqb_neq in H1, H2. by rewrite H1, H2.
Qed.

Lemma roadmap_issue_of_known_mode issue :
  mode = "components" ∨ mode = "labels" →
  roadmap_issue_of mode prefix include_beta name issue =
  match fields_attributes issue !! name with
  | None => Raise (AttributeError name)
  | Some attr =>
      let r beta_flag :=
        {| summary := fields_summary issue;
           description := default EmptyString (fields_description issue);
           jira_id := issue_id issue;
           product_categories :=
             filter_categories prefix
               (if String.eqb mode "components"
                then fields_components issue else fields_labels issue);
           jira_quarter := fields_status_name issue;
           jira_link := permalink issue;
           beta := beta_flag |} in
      attr_is_Beta attr ≫= λ b : bool,
      if b
      then if include_beta then Ok (Some (r true)) else Ok None
      else Ok (Some (r false))
  end.
Proof.
  intros Hm. unfold roadmap_issue_of, getattr.
  assert (Hc : (if String.eqb mode "components"
                then Ok (fields_components issue)
                else if String.eqb mode "labels"
                     then Ok (fields_labels issue)
                     else Raise (ConfigurationError mode))
               = Ok (if String.eqb mode "components"
                     then fields_components issue else fields_labels issue)).
  { destruct Hm as [-> | ->]; reflexivity. }
  rewrite Hc. simpl.
  destruct (fields_attributes issue !! name) as [attr|]; simpl; [|done].
  destruct (attr_is_Beta attr) as [[]|e], include_beta; simpl;
    by destruct (fields_description issue).
Qed.

Lemma roadmap_issue_of_Raise issue e :
  roadmap_issue_of mode prefix include_beta name issue = Raise e →
  e = ConfigurationError mode ∨ e = AttributeError name
  ∨ e = AttributeError "value".
Proof.
  destruct (decide (mode = "components")) as [Hc|Hc];
    [|destruct (decide (mode = "labels")) as [Hl|Hl]].
  3: { rewrite roadmap_issue_of_unknown_mode by done. intros [= <-]. by left. }
  all: rewrite roadmap_issue_of_known_mode by auto;
    destruct (fields_attributes issue !! name) as [attr|]; simpl;
    [destruct (attr_is_Beta attr) as [[]|e'] eqn:E; simpl;
       [by destruct include_beta|done|];
       intros [= <-]; apply attr_is_Beta_Raise in E as (-> & _); auto
    |intros [= <-]; auto].
Qed.

Lemma roadmap_issue_of_Raise_known issue e :
  mode = "components" ∨ mode = "labels" →
  roadmap_issue_of mode prefix include_beta name issue = Raise e →
  e = AttributeError name ∨ e = AttributeError "value".
Proof.
  intros Hm. rewrite roadmap_issue_of_known_mode by done.
  destruct (fields_attributes issue !! name) as [attr|]; simpl;
    [destruct (attr_is_Beta attr) as [[]|e'] eqn:E; simpl;
       [by destruct include_beta|done|];
       intros [= <-]; apply attr_is_Beta_Raise in E as (-> & _); auto
    |intros [= <-]; auto].
Qed.

Lemma roadmap_issues_loop_Ok ids acc out :
  roadmap_issues_loop mode prefix include_beta name ids acc = Ok out ↔
  ∃ rs, Forall2 (λ issue r,
          roadmap_issue_of mode prefix include_beta name issue = Ok r) ids rs
        ∧ out = acc ++ omap id rs.
Proof.
  revert acc. induction ids as [|issue ids IH]; intros acc; simpl.
  - split.
    + intros [= <-]. exists []. split; [constructor|by rewrite app_nil_r].
    + intros (rs & H & ->). apply Forall2_nil_inv_l in H as ->.
      by rewrite app_nil_r.
  - destruct (roadmap_issue_of mode prefix include_beta name issue)
      as [r|e] eqn:E; simpl.
    + rewrite IH. split.
      * intros (rs & H & ->). exists (r :: rs). split; [by constructor|].
        destruct r; simpl; [by rewrite <- app_assoc|done].
      * intros (rs & H & ->).
        apply Forall2_cons_inv_l in H as (r' & rs' & Hr & H & ->).
        assert (r' = r) as -> by congruence.
        exists rs'. split; [done|].
        destruct r; simpl; [by rewrite <- app_assoc|done].
    + split; [done|]. intros (rs & H & _).
      apply Forall2_cons_inv_l in H as (r' & rs' & Hr & _). congruence.
Qed.

Lemma roadmap_issues_loop_Raise ids acc e :
  roadmap_issues_loop mode prefix include_beta name ids acc = Raise e →
  ∃ issue, issue ∈ ids
           ∧ roadmap_issue_of mode prefix include_beta name issue = Raise e.
Proof.
  revert acc. induction ids as [|issue ids IH]; intros acc; simpl; [done|].
  destruct (roadmap_issue_of mode prefix include_beta name issue)
    as [r|e'] eqn:E; simpl.
  - intros (i & Hi & H)%IH. exists i. split; [by right|done].
  - intros [= ->]. exists issue. split; [by left|done].
Qed.

End Normalizer.

Lemma ConfigurationError_not_NotFoundError mode :
  ConfigurationError mode ≠ NotFoundError.
Proof. intros H. inversion H. Qed.

(** ** Running the builders *)

Lemma Gen_bind_Ok {A B} (m : Gen A) (f : A → Gen B) w a w' :
  m w = (Ok a, w') → (m ≫= f) w = f a w'.
Proof. intros H. unfold mbind, Gen_bind. by rewrite H. Qed.

Lemma lift_Ok {A} (a : A) w : lift (Ok a) w = (Ok a, w).
Proof. reflexivity. Qed.

Lemma Qnat_nonzero {A} (l : list A) :
  l ≠ [] → Qeq_bool (Qnat (length l)) 0 = false.
Proof. destruct l; [done|]. intros _. reflexivity. Qed.

Section Allocation.

Variable uuid4_draw : nat → string.
Variables (rb : roadmap_box_config) (bw bx bY : Q).

Abbreviation mk := (box_at rb bw bx bY).

Lemma gen_roadmap_item_req_run page_id width locx locy tagline desc link beta w :
  gen_roadmap_item_req uuid4_draw page_id width locx locy rb tagline desc
    link beta w =
  (Ok (item_req_body page_id width locx locy rb tagline desc link
         (uuid4_draw (draws w))
       ++ (if beta
           then beta_flag_req_body page_id width locx locy rb
                  (uuid4_draw (S (draws w)))
           else []),
       uuid4_draw (draws w)),
   {| draws := (if beta then 2 else 1) + draws w;
      requests_sent := requests_sent w |}).
Proof.
  destruct beta; [reflexivity|].
  rewrite app_nil_r. reflexivity.
Qed.

Lemma place_in_columns_run slide issue columns col_num w :
  ∃ placed w',
    place_in_columns uuid4_draw rb bw bx bY slide issue col_num columns w
    = (Ok (bump issue columns, placed), w')
    ∧ map box placed = boxes_in_columns (mk slide issue) issue col_num columns
    ∧ Forall (built uuid4_draw rb) placed
    ∧ requests_sent w' = requests_sent w.
Proof.
  revert col_num w. induction columns as [|col rest IH]; intros col_num w.
  - exists [], w. by repeat split.
  - cbn [place_in_columns boxes_in_columns bump map]. unfold accepts.
    destruct (bool_decide (jira_quarter issue ∈ jira_statuses col)).
    + erewrite Gen_bind_Ok by apply gen_roadmap_item_req_run.
      cbv beta iota.
      match goal with
      | |- context [@mbind Gen _ _ _ _ (place_in_columns _ _ _ _ _ _ _ _ _) ?w1] =>
        destruct (IH (S col_num) w1) as (placed & w2 & Hrun & Hbox & Hb & Hs)
      end.
      erewrite Gen_bind_Ok by exact Hrun.
      eexists _, w2. split; [reflexivity|]. split; [|split].
      * cbn [map box]. by rewrite Hbox.
      * constructor; [|done]. exists w. cbn [box roadmap_shape shape_id].
        by rewrite gen_roadmap_item_req_run.
      * by rewrite Hs.
    + destruct (IH (S col_num) w) as (placed & w2 & Hrun & Hbox & Hb & Hs).
      erewrite Gen_bind_Ok by exact Hrun.
      by exists placed, w2.
Qed.

Lemma place_issues_run slide issues columns w :
  ∃ placed w',
    place_issues uuid4_draw rb bw bx bY slide issues columns w
    = (Ok (bump_all slide issues columns, placed), w')
    ∧ map box placed = boxes_of_issues mk slide issues columns
    ∧ Forall (built uuid4_draw rb) placed
    ∧ requests_sent w' = requests_sent w.
Proof.
  revert columns w. induction issues as [|issue rest IH]; intros columns w.
  - exists [], w. by repeat split.
  - cbn [place_issues boxes_of_issues bump_all foldl]. unfold on_slide.
    destruct (bool_decide (product_category slide ∈ product_categories issue)).
    + destruct (place_in_columns_run slide issue columns 0 w)
        as (p1 & w1 & Hrun1 & Hbox1 & Hb1 & Hs1).
      erewrite Gen_bind_Ok by exact Hrun1. cbv beta iota.
      destruct (IH (bump issue columns) w1)
        as (p2 & w2 & Hrun2 & Hbox2 & Hb2 & Hs2).
      erewrite Gen_bind_Ok by exact Hrun2.
      exists (p1 ++ p2), w2. split; [reflexivity|]. split; [|split].
      * by rewrite map_app, Hbox1, Hbox2.
      * by apply Forall_app.
      * congruence.
    + apply IH.
Qed.

Lemma reset_bump issue columns :
  map (set_count 0) (bump issue columns) = map (set_count 0) columns.
Proof.
  unfold bump. rewrite map_map. apply map_ext. intros col.
  by destruct (accepts col issue).
Qed.

Lemma reset_bump_all slide issues columns :
  map (set_count 0) (bump_all slide issues columns) = map (set_count 0) columns.
Proof.
  unfold bump_all. revert columns.
  induction issues as [|issue rest IH]; intros columns; simpl; [done|].
  rewrite IH. destruct (on_slide slide issue); [apply reset_bump|done].
Qed.

Lemma place_on_slides_run slides issues columns0 columns w :
  map (set_count 0) columns = map (set_count 0) columns0 →
  ∃ columns' per_slide w',
    place_on_slides uuid4_draw rb bw bx bY slides issues columns w
    = (Ok (columns', concat per_slide), w')
    ∧ Forall2 (λ slide placed,
         map box placed = boxes_of_slide mk issues columns0 slide) slides per_slide
    ∧ Forall (built uuid4_draw rb) (concat per_slide)
    ∧ requests_sent w' = requests_sent w.
Proof.
  revert columns w. induction slides as [|slide rest IH]; intros columns w Hc.
  - exists columns, [], w. repeat split; constructor.
  - cbn [place_on_slides].
    destruct (place_issues_run slide issues (map (set_count 0) columns) w)
      as (p1 & w1 & Hrun1 & Hbox1 & Hb1 & Hs1).
    erewrite Gen_bind_Ok by exact Hrun1. cbv beta iota.
    destruct (IH (bump_all slide issues (map (set_count 0) columns)) w1)
      as (cols' & ps & w2 & Hrun2 & Hbox2 & Hb2 & Hs2).
    { rewrite reset_bump_all, <- Hc, map_map. by apply map_ext. }
    erewrite Gen_bind_Ok by exact Hrun2.
    exists cols', (p1 :: ps), w2. split; [reflexivity|]. split; [|split].
    + constructor; [|done]. unfold boxes_of_slide. by rewrite <- Hc.
    + cbn [concat]. by apply Forall_app.
    + congruence.
Qed.

End Allocation.

Lemma roadmap_placements_run uuid4_draw cfg rb arrow lh columns slides issues w :
  populate_config cfg rb arrow lh columns →
  ∃ columns' per_slide w',
    roadmap_placements uuid4_draw slides cfg issues w
    = (Ok (columns', concat per_slide), w')
    ∧ Forall2 (λ slide placed,
         map box placed
         = boxes_of_slide
             (box_at rb (box_width rb arrow columns) (box_origin_x rb lh)
                     (box_origin_y lh))
             issues columns slide) slides per_slide
    ∧ Forall (built uuid4_draw rb) (concat per_slide)
    ∧ requests_sent w' = requests_sent w.
Proof.
  intros [Hrb Harrow Hlh Hcols Hne]. unfold roadmap_placements.
  rewrite Hrb, Harrow, Hlh, Hcols. cbn [subscript].
  do 4 (erewrite Gen_bind_Ok by apply lift_Ok).
  unfold py_div. rewrite (Qnat_nonzero _ Hne).
  erewrite Gen_bind_Ok by apply lift_Ok.
  by apply place_on_slides_run.
Qed.

(** ** Which columns an issue is placed in *)

Section Columns.

Variables (rb : roadmap_box_config) (bw bx bY : Q).

Abbreviation mk := (box_at rb bw bx bY).

Lemma matching_columns_cons issue col rest :
  matching_columns issue (col :: rest)
  = (if accepts col issue then [0] else [])
    ++ map S (matching_columns issue rest).
Proof. reflexivity. Qed.

Lemma elem_of_matching_columns issue cols c :
  c ∈ matching_columns issue cols ↔
  ∃ col, cols !! c = Some col ∧ jira_quarter issue ∈ jira_statuses col.
Proof.
  revert c. induction cols as [|col rest IH]; intros c.
  - split; [by intros ?%elem_of_nil|by intros (? & ? & _)].
  - rewrite matching_columns_cons, elem_of_app, list_elem_of_fmap. split.
    + intros [H|(c' & -> & H)].
      * unfold accepts in H. case_bool_decide; [|by apply elem_of_nil in H].
        apply list_elem_of_singleton in H as ->. by exists col.
      * apply IH in H as (col' & ? & ?). by exists col'.
    + intros (col' & Hl & Hq). destruct c as [|c]; simpl in Hl.
      * injection Hl as ->. left. unfold accepts.
        rewrite bool_decide_eq_true_2 by done. by left.
      * right. exists c. split; [done|]. apply IH. by exists col'.
Qed.

Lemma matching_columns_sorted issue cols :
  StronglySorted lt (matching_columns issue cols).
Proof.
  induction cols as [|col rest IH]; [constructor|].
  rewrite matching_columns_cons.
  assert (HS : StronglySorted lt (map S (matching_columns issue rest))).
  { induction IH as [|x l _ IH' Hx]; cbn [map]; constructor; [done|].
    rewrite Forall_fmap. eapply Forall_impl; [exact Hx|]. simpl. lia. }
  destruct (accepts col issue); [|done].
  constructor; [done|]. rewrite Forall_fmap. apply Forall_true. simpl. lia.
Qed.

Lemma matching_columns_fmap issue (f : column → column) cols :
  (∀ col, accepts (f col) issue = accepts col issue) →
  matching_columns issue (map f cols) = matching_columns issue cols.
Proof.
  intros Hf. induction cols as [|col rest IH]; [done|].
  cbn [map]. by rewrite !matching_columns_cons, Hf, IH.
Qed.

Lemma matching_columns_bump issue i cols :
  matching_columns issue (bump i cols) = matching_columns issue cols.
Proof.
  apply matching_columns_fmap. intros col.
  by destruct (accepts col i).
Qed.

Lemma boxes_in_columns_key slide issue k cols :
  map key (boxes_in_columns (mk slide issue) issue k cols)
  = map (λ c, (slide, issue, k + c)) (matching_columns issue cols).
Proof.
  revert k. induction cols as [|col rest IH]; intros k; [done|].
  cbn [boxes_in_columns]. rewrite matching_columns_cons.
  specialize (IH (S k)).
  destruct (accepts col issue); cbn [map app]; rewrite ?IH, map_map.
  - rewrite Nat.add_0_r. unfold key at 1. cbn. f_equal.
    apply map_ext. intros c. by rewrite Nat.add_succ_r.
  - apply map_ext. intros c. by rewrite Nat.add_succ_r.
Qed.

Lemma boxes_of_issues_key slide issues cols :
  map key (boxes_of_issues mk slide issues cols)
  = issues ≫= λ issue,
      if on_slide slide issue
      then (λ c, (slide, issue, c)) <$> matching_columns issue cols
      else [].
Proof.
  revert cols. induction issues as [|issue rest IH]; intros cols; [done|].
  cbn [boxes_of_issues]. rewrite bind_cons.
  destruct (on_slide slide issue).
  - rewrite map_app, boxes_in_columns_key, IH. f_equal.
    apply list_bind_ext; [|done]. intros i.
    by rewrite matching_columns_bump.
  - by rewrite IH.
Qed.

Lemma boxes_of_slide_key issues cols slide :
  map key (boxes_of_slide mk issues cols slide)
  = issues ≫= λ issue,
      if on_slide slide issue
      then (λ c, (slide, issue, c)) <$> matching_columns issue cols
      else [].
Proof.
  unfold boxes_of_slide. rewrite boxes_of_issues_key.
  apply list_bind_ext; [|done]. intros issue.
  by rewrite matching_columns_fmap.
Qed.

End Columns.

(** ** Where the boxes of a column go *)


Section Stacking.

Variables (rb : roadmap_box_config) (bw bx bY : Q).

Abbreviation mk := (box_at rb bw bx bY).
Abbreviation step := (rb_height rb + rb_y_padding rb)%Q.



Lemma boxes_in_columns_form slide issue k cols :
  Forall (λ b, ∃ col, col ∈ cols ∧ b = mk slide issue (pb_col_num b) col)
         (boxes_in_columns (mk slide issue) issue k cols).
Proof.
  revert k. induction cols as [|col rest IH]; intros k; [constructor|].
  cbn [boxes_in_columns].
  assert (Forall (λ b, ∃ col0, col0 ∈ col :: rest
                               ∧ b = mk slide issue (pb_col_num b) col0)
            (boxes_in_columns (mk slide issue) issue (S k) rest)).
  { eapply Forall_impl; [apply IH|]. intros b (c & ? & ?). exists c.
    split; [by right|done]. }
  destruct (accepts col issue); [|done].
  constructor; [|done]. exists col. split; [by left|done].
Qed.

Lemma boxes_of_issues_form slide issues cols :
  Forall (λ b, ∃ issue col,
            issue ∈ issues ∧ b = mk slide issue (pb_col_num b) col)
         (boxes_of_issues mk slide issues cols).
Proof.
  revert cols. induction issues as [|issue rest IH]; intros cols; [constructor|].
  cbn [boxes_of_issues].
  assert (Forall (λ b, ∃ issue0 col, issue0 ∈ issue :: rest
                                     ∧ b = mk slide issue0 (pb_col_num b) col)
            (boxes_of_issues mk slide rest
               (if on_slide slide issue then bump issue cols else cols))).
  { eapply Forall_impl; [apply IH|]. intros b (i & c & ? & ?). exists i, c.
    split; [by right|done]. }
  destruct (on_slide slide issue); [|done].
  apply Forall_app. split; [|done].
  eapply Forall_impl; [apply boxes_in_columns_form|].
  intros b (c & _ & ?). exists issue, c. split; [by left|done].
Qed.









End Stacking.

(** ** The item box *)

Section ItemBox.

Variable uuid4_draw : nat → string.
Variables (page_id : string) (width locx locy : Q) (rb : roadmap_box_config).
Variables (tagline desc link : string).

Lemma item_req_body_shapes element_id :
  created_shapes
    (item_req_body page_id width locx locy rb tagline desc link element_id)
  = [Json.createShape element_id (rb_shape_type rb) page_id (rb_height rb)
       width locx locy].
Proof. reflexivity. Qed.

Lemma beta_flag_req_body_shapes badge_id :
  created_shapes (beta_flag_req_body page_id width locx locy rb badge_id)
  = [Json.createShape badge_id "FLOW_CHART_TERMINATOR" page_id
       (rb_height rb / 4.5)%Q (width / 7)%Q (locx + width * 6 / 7 - 2)%Q
       (locy + 2)%Q].
Proof. reflexivity. Qed.




Lemma beta_flag_req_body_texts badge_id :
  inserted_texts (beta_flag_req_body page_id width locx locy rb badge_id)
  = ["beta"].
Proof. reflexivity. Qed.

End ItemBox.

Lemma built_shape uuid4_draw rb p :
  built uuid4_draw rb p →
  ∃ badge_id,
    roadmap_shape p
    = item_req_body (google_slide_id (pb_slide (box p))) (pb_width (box p))
        (pb_locx (box p)) (pb_locy (box p)) rb (summary (pb_issue (box p)))
        (pb_description (box p)) (jira_link (pb_issue (box p))) (shape_id p)
      ++ (if beta (pb_issue (box p))
          then beta_flag_req_body (google_slide_id (pb_slide (box p)))
                 (pb_width (box p)) (pb_locx (box p)) (pb_locy (box p)) rb
                 badge_id
          else []).
Proof.
  intros (w & Hgen). rewrite gen_roadmap_item_req_run in Hgen.
  cbn [fst] in Hgen. exists (uuid4_draw (S (draws w))).
  remember (uuid4_draw (draws w)) as element_id eqn:Ee.
  remember (item_req_body _ _ _ _ _ _ _ _ element_id ++ _) as body eqn:Eb.
  injection Hgen as -> ->. exact Eb.
Qed.

Lemma created_shapes_app b1 b2 :
  created_shapes (b1 ++ b2) = created_shapes b1 ++ created_shapes b2.
Proof. apply filter_app. Qed.

Lemma inserted_texts_app b1 b2 :
  inserted_texts (b1 ++ b2) = inserted_texts b1 ++ inserted_texts b2.
Proof. apply omap_app. Qed.


Lemma concat_per_slide {A B C} (f : A → B) (g : C → list B)
    (slides : list C) (per_slide : list (list A)) :
  Forall2 (λ slide placed, map f placed = g slide) slides per_slide →
  map f (concat per_slide) = slides ≫= g.
Proof.
  induction 1 as [|slide placed slides' pss H _ IH]; [done|].
  cbn [concat]. by rewrite map_app, bind_cons, H, IH.
Qed.

Lemma per_slide_form rb bw bx bY issues columns slides
    (per_slide : list (list placement)) :
  Forall2 (λ slide placed,
      map box placed = boxes_of_slide (box_at rb bw bx bY) issues columns slide)
    slides per_slide →
  Forall (λ p, ∃ slide issue col,
            box p = box_at rb bw bx bY slide issue (pb_col_num (box p)) col)
         (concat per_slide).
Proof.
  induction 1 as [|slide ps slides' pss H _ IH]; [constructor|].
  cbn [concat]. apply Forall_app. split; [|done].
  pose proof (boxes_of_issues_form rb bw bx bY slide issues
                (map (set_count 0) columns)) as Hform.
  fold (boxes_of_slide (box_at rb bw bx bY) issues columns slide) in Hform.
  rewrite <- H, Forall_fmap in Hform.
  eapply Forall_impl; [exact Hform|].
  intros p (i & c & _ & ?). by exists slide, i, c.
Qed.

Lemma roadmap_placements_keys rb bw bx bY issues columns slides
    (per_slide : list (list placement)) :
  Forall2 (λ slide placed,
      map box placed = boxes_of_slide (box_at rb bw bx bY) issues columns slide)
    slides per_slide →
  map (λ p, key (box p)) (concat per_slide)
  = placement_keys slides issues columns.
Proof.
  intros Hbox. unfold placement_keys.
  apply (concat_per_slide (λ p, key (box p))).
  eapply Forall2_impl; [exact Hbox|]. intros slide ps H. cbn beta.
  rewrite <- (boxes_of_slide_key rb bw bx bY), <- H. by rewrite map_map.
Qed.


(** ** The layout *)

(** C8.  [gen_roadmap_item_req] creates the shape of the box and, exactly
    when [beta] holds, one more shape, the badge.  The badge sits at
    [locx + width * 6/7 - 2] horizontally, that is [width * 6/7 - 2] from
    the left edge of the box (148 for a width of 175), and at [locy + 2]
    vertically. *)
Theorem beta_badge_iff_beta uuid4_draw page_id width locx locy rb tagline desc
    link beta w :
  ∃ body element_id w' box_shape badges,
    gen_roadmap_item_req uuid4_draw page_id width locx locy rb tagline desc
      link beta w = (Ok (body, element_id), w')
    ∧ created_shapes body = box_shape :: badges
    ∧ shape_objectId box_shape = Some element_id
    ∧ shape_translateX box_shape = Some locx
    ∧ shape_translateY box_shape = Some locy
    ∧ match beta with
      | false => badges = []
      | true =>
          ∃ badge badge_x,
            badges = [badge]
            ∧ shape_translateX badge = Some badge_x
            ∧ shape_translateY badge = Some (locy + 2)%Q
            ∧ (badge_x == locx + (width * (6 / 7) - 2))%Q
            ∧ ((width == 175)%Q → (badge_x - locx == 148)%Q)
      end.
Proof.
  rewrite gen_roadmap_item_req_run.
  eexists _, _, _, _, _. split; [reflexivity|].
  rewrite created_shapes_app, item_req_body_shapes.
  split; [reflexivity|]. do 3 (split; [reflexivity|]).
  destruct beta.
  - rewrite beta_flag_req_body_shapes.
    eexists _, _. split; [reflexivity|]. do 2 (split; [reflexivity|]).
    split; [field|]. intros ->. field.
  - reflexivity.
Qed.


(** C4.  One box is placed for every slide, issue and column of
    [placement_keys], and every box is placed at
    [x = origin-x + columnIndex * (boxWidth + x_padding)] with the one
    [boxWidth = (timelineWidth - x_padding * (numColumns + 1)) / numColumns],
    which is 175 for 4 columns, a timeline of 800 and a padding of 20; the
    shape created for the box carries that [x] and that width. *)
Theorem placement_x uuid4_draw cfg rb arrow lh columns slides issues w :
  populate_config cfg rb arrow lh columns →
  let boxWidth :=
    ((ta_width arrow - rb_x_padding rb * (Qnat (length columns) + 1))
     / Qnat (length columns))%Q in
  let origin_x := (lh_locx lh + lh_width lh + rb_x_padding rb)%Q in
  ∃ columns' placed w',
    roadmap_placements uuid4_draw slides cfg issues w
    = (Ok (columns', placed), w')
    ∧ map (λ p, (key (box p), pb_width (box p), pb_locx (box p))) placed
      = map (λ k, (k, boxWidth,
                   (origin_x + (boxWidth + rb_x_padding rb) * Qnat k.2)%Q))
            (placement_keys slides issues columns)
    ∧ Forall (λ p,
        pb_width (box p) = boxWidth
        ∧ (pb_locx (box p)
           == origin_x
              + Qnat (pb_col_num (box p)) * (boxWidth + rb_x_padding rb))%Q
        ∧ (∃ box_shape badges,
             created_shapes (roadmap_shape p) = box_shape :: badges
             ∧ shape_translateX box_shape = Some (pb_locx (box p))
             ∧ shape_width box_shape = Some (pb_width (box p)))) placed
    ∧ (length columns = 4%nat → (ta_width arrow == 800)%Q →
       (rb_x_padding rb == 20)%Q → (boxWidth == 175)%Q).
Proof.
  intros Hcfg. cbn zeta.
  destruct (roadmap_placements_run uuid4_draw _ _ _ _ _ slides issues w Hcfg)
    as (columns' & per_slide & w' & Hrun & Hbox & Hbuilt & _).
  exists columns', (concat per_slide), w'. split; [done|].
  pose proof (per_slide_form _ _ _ _ _ _ _ _ Hbox) as Hform.
  assert (Hwx : Forall (λ p,
            (pb_width (box p), pb_locx (box p))
            = (box_width rb arrow columns,
               (box_origin_x rb lh
                + (box_width rb arrow columns + rb_x_padding rb)
                  * Qnat (key (box p)).2)%Q)) (concat per_slide)).
  { eapply Forall_impl; [exact Hform|].
    intros p (slide & issue & col & Hb). by rewrite Hb at 1 2. }
  split; [|split].
  - rewrite <- (roadmap_placements_keys _ _ _ _ _ _ _ _ Hbox).
    rewrite map_map.
    apply map_ext_Forall.
    eapply Forall_impl; [exact Hwx|].
    intros p [= Hw Hx]. cbn beta. by rewrite Hw, Hx.
  - rewrite Forall_forall in Hwx, Hbuilt. apply Forall_forall. intros p Hp.
    injection (Hwx p Hp) as Hw Hx.
    destruct (built_shape _ _ _ (Hbuilt p Hp)) as (badge_id & Hshape).
    split; [exact Hw|]. split.
    + rewrite Hx. unfold box_origin_x, box_width. cbn [key snd]. ring.
    + rewrite Hshape, created_shapes_app, item_req_body_shapes.
      eexists _, _. split; [reflexivity|]. split; reflexivity.
  - intros Hlen H800 H20. rewrite Hlen, H800, H20. reflexivity.
Qed.

(** C1 (as the code has it).  On every slide, an issue whose categories
    contain the category of the slide is placed once in every column whose
    statuses contain its status, in configured order: the columns
    [matching_columns] lists.  An issue whose status is in no column is not
    placed, and the allocation still succeeds. *)
Theorem placement_columns uuid4_draw cfg rb arrow lh columns slides issues w :
  populate_config cfg rb arrow lh columns →
  ∃ columns' placed w',
    roadmap_placements uuid4_draw slides cfg issues w
    = (Ok (columns', placed), w')
    ∧ map (λ p, key (box p)) placed
      = (slides ≫= λ slide, issues ≫= λ issue,
           if bool_decide (product_category slide ∈ product_categories issue)
           then (λ c, (slide, issue, c)) <$> matching_columns issue columns
           else [])
    ∧ (∀ issue c,
         c ∈ matching_columns issue columns ↔
         ∃ col, columns !! c = Some col
                ∧ jira_quarter issue ∈ jira_statuses col)
    ∧ (∀ issue, StronglySorted lt (matching_columns issue columns))
    ∧ (∀ issue,
         (∀ col, col ∈ columns → jira_quarter issue ∉ jira_statuses col) →
         Forall (λ p, pb_issue (box p) ≠ issue) placed).
Proof.
  intros Hcfg.
  destruct (roadmap_placements_run uuid4_draw _ _ _ _ _ slides issues w Hcfg)
    as (columns' & per_slide & w' & Hrun & Hbox & _ & _).
  exists columns', (concat per_slide), w'. split; [done|].
  assert (Hkey : map (λ p, key (box p)) (concat per_slide)
                 = slides ≫= λ slide, issues ≫= λ issue,
                     if on_slide slide issue
                     then (λ c, (slide, issue, c)) <$> matching_columns issue columns
                     else []).
  { apply (concat_per_slide (λ p, key (box p))).
    eapply Forall2_impl; [exact Hbox|]. intros slide ps H. cbn beta.
    rewrite <- (boxes_of_slide_key rb (box_width rb arrow columns)
                  (box_origin_x rb lh) (box_origin_y lh)), <- H.
    by rewrite map_map. }
  split; [exact Hkey|].
  split; [intros; apply elem_of_matching_columns|].
  split; [intros; apply matching_columns_sorted|].
  intros issue Hnone. apply Forall_forall. intros p Hp Hissue.
  assert (Hin : key (box p) ∈ map (λ p, key (box p)) (concat per_slide)).
  { apply list_elem_of_fmap. by exists p. }
  rewrite Hkey in Hin.
  apply list_elem_of_bind in Hin as (slide & Hin & _).
  apply list_elem_of_bind in Hin as (issue' & Hin & _).
  destruct (on_slide slide issue'); [|by apply elem_of_nil in Hin].
  apply list_elem_of_fmap in Hin as (c & Hk & Hc).
  unfold key in Hk. injection Hk as _ Hi _.
  rewrite Hissue in Hi. subst issue'.
  apply elem_of_matching_columns in Hc as (col & Hl & Hq).
  apply (Hnone col); [|done]. by eapply list_elem_of_lookup_2.
Qed.


(** ** The normalizer and the assembly *)

Lemma generate_roadmap_deck_Raise uuid4_draw set_iteration jira_service
    google_service cfg presentation_id kwargs e w :
  cfg_jira_roadmap_issues cfg = Some kwargs →
  get_roadmap_issues jira_service (jira_project kwargs) (issue_type kwargs)
    (product_category_mode kwargs) (product_category_prefix kwargs)
    (include_beta kwargs) (beta_attribute_name kwargs) = Raise e →
  generate_roadmap_deck uuid4_draw set_iteration jira_service google_service
    cfg presentation_id w = (Raise e, w).
Proof.
  intros Hk He. unfold generate_roadmap_deck. rewrite Hk.
  erewrite Gen_bind_Ok by apply lift_Ok. rewrite He. reflexivity.
Qed.

Lemma get_roadmap_issues_Ok jira_service project itype mode prefix
    include_beta name out :
  get_roadmap_issues jira_service project itype mode prefix include_beta name
  = Ok out ↔
  search_issues jira_service (jql_filter project itype) ≠ []
  ∧ ∃ rs,
      Forall2 (λ issue r,
          roadmap_issue_of mode prefix include_beta name issue = Ok r)
        (search_issues jira_service (jql_filter project itype)) rs
      ∧ out = omap id rs.
Proof.
  unfold get_roadmap_issues.
  destruct (search_issues jira_service (jql_filter project itype))
    as [|issue rest] eqn:E.
  - split; [done|]. by intros [? _].
  - rewrite roadmap_issues_loop_Ok. split; [by intros H|by intros [_ H]].
Qed.

Lemma get_unique_product_groups_elem set_iteration roadmap_issues x :
  (∀ l y, y ∈ set_iteration l ↔ y ∈ l) →
  x ∈ get_unique_product_groups set_iteration roadmap_issues ↔
  ∃ issue, issue ∈ roadmap_issues ∧ x ∈ product_categories issue.
Proof.
  intros Hset. unfold get_unique_product_groups. rewrite Hset.
  induction roadmap_issues as [|issue rest IH]; cbn [map concat].
  - split; [by intros ?%elem_of_nil|by intros (? & ?%elem_of_nil & _)].
  - rewrite elem_of_app, IH. split.
    + intros [Hx|(i & Hi & Hx)]; [exists issue|exists i];
        (split; [|done]); [by left|by right].
    + intros (i & [->|Hi]%elem_of_cons & Hx); [by left|right; by exists i].
Qed.

(** C6.  When the query finds nothing, [get_roadmap_issues] raises the
    "no issues found" exception ([NotFoundError]) and so does the whole
    assembly, before it draws an identifier or sends a request; when the
    query finds an issue, [get_roadmap_issues] does not raise it. *)
Theorem empty_query_NotFoundError jira_service project itype mode prefix
    include_beta name :
  let found := search_issues jira_service (jql_filter project itype) in
  let normalized :=
    get_roadmap_issues jira_service project itype mode prefix include_beta
      name in
  (found = [] →
   normalized = Raise NotFoundError
   ∧ ∀ uuid4_draw set_iteration google_service cfg presentation_id w,
       cfg_jira_roadmap_issues cfg
       = Some (kwargs_of project itype mode prefix include_beta name) →
       generate_roadmap_deck uuid4_draw set_iteration jira_service
         google_service cfg presentation_id w = (Raise NotFoundError, w))
  ∧ (found ≠ [] → normalized ≠ Raise NotFoundError).
Proof.
  cbn zeta. split.
  - intros Hnil.
    assert (H : get_roadmap_issues jira_service project itype mode prefix
                  include_beta name = Raise NotFoundError).
    { unfold get_roadmap_issues. by rewrite Hnil. }
    split; [exact H|]. intros. by eapply generate_roadmap_deck_Raise.
  - intros Hne H. unfold get_roadmap_issues in H.
    destruct (search_issues jira_service (jql_filter project itype))
      as [|issue rest]; [done|].
    apply roadmap_issues_loop_Raise in H as (i & _ & H).
    apply roadmap_issue_of_Raise in H as [H|[H|H]]; [|done..].
    by apply (ConfigurationError_not_NotFoundError mode).
Qed.

(** C7 (as the code has it).  With a mode other than "components" and
    "labels", [get_roadmap_issues] raises the "not valid" exception
    ([ConfigurationError]) when the query finds at least one issue, and the
    "no issues found" exception when it finds none; either way the assembly
    stops there, before it draws an identifier or sends a request.  With
    one of the two modes the "not valid" exception is never raised. *)
Theorem unknown_mode_ConfigurationError jira_service project itype mode prefix
    include_beta name :
  let found := search_issues jira_service (jql_filter project itype) in
  let normalized :=
    get_roadmap_issues jira_service project itype mode prefix include_beta
      name in
  (mode ≠ "components" → mode ≠ "labels" →
   (found ≠ [] → normalized = Raise (ConfigurationError mode))
   ∧ (found = [] → normalized = Raise NotFoundError)
   ∧ ∀ uuid4_draw set_iteration google_service cfg presentation_id w,
       cfg_jira_roadmap_issues cfg
       = Some (kwargs_of project itype mode prefix include_beta name) →
       generate_roadmap_deck uuid4_draw set_iteration jira_service
         google_service cfg presentation_id w
       = (Raise (if bool_decide (found = []) then NotFoundError
                 else ConfigurationError mode), w))
  ∧ (mode = "components" ∨ mode = "labels" →
     ∀ m, normalized ≠ Raise (ConfigurationError m)).
Proof.
  cbn zeta. split.
  - intros H1 H2.
    assert (Hne : search_issues jira_service (jql_filter project itype) ≠ [] →
                  get_roadmap_issues jira_service project itype mode prefix
                    include_beta name = Raise (ConfigurationError mode)).
    { unfold get_roadmap_issues.
      destruct (search_issues jira_service (jql_filter project itype))
        as [|issue rest]; [done|]. intros _. cbn [roadmap_issues_loop].
      by rewrite roadmap_issue_of_unknown_mode. }
    assert (Hnil : search_issues jira_service (jql_filter project itype) = [] →
                   get_roadmap_issues jira_service project itype mode prefix
                     include_beta name = Raise NotFoundError).
    { unfold get_roadmap_issues. by intros ->. }
    split; [exact Hne|]. split; [exact Hnil|].
    intros. eapply generate_roadmap_deck_Raise; [done|]. cbn.
    case_bool_decide; auto.
  - intros Hm m H. unfold get_roadmap_issues in H.
    destruct (search_issues jira_service (jql_filter project itype))
      as [|issue rest].
    + injection H as H. by apply (ConfigurationError_not_NotFoundError m).
    + apply roadmap_issues_loop_Raise in H as (i & _ & H).
      by apply roadmap_issue_of_Raise_known in H as [H|H].
Qed.

(** C5.  In mode "components" the categories of a normalized issue are the
    component names that start with the prefix, in order, each without the
    prefix: [x] is a category exactly when the component [prefix + x]
    exists. *)
Theorem component_categories prefix include_beta name issue r :
  roadmap_issue_of "components" prefix include_beta name issue = Ok (Some r) →
  product_categories r
  = map (str_drop (String.length prefix))
        (filter (λ c, Is_true (startswith c prefix)) (fields_components issue))
  ∧ (∀ c, startswith c prefix = true ↔ ∃ x, c = prefix +:+ x)
  ∧ (∀ x, str_drop (String.length prefix) (prefix +:+ x) = x)
  ∧ (∀ x, x ∈ product_categories r ↔ prefix +:+ x ∈ fields_components issue).
Proof.
  intros H. rewrite roadmap_issue_of_known_mode in H by auto.
  assert (Hc : product_categories r
               = filter_categories prefix (fields_components issue)).
  { destruct (fields_attributes issue !! name) as [attr|]; [|done].
    cbn zeta in H. destruct (attr_is_Beta attr) as [[]|e], include_beta;
      cbn [mbind result_bind] in H; by simplify_eq. }
  rewrite Hc. split; [apply filter_categories_comprehension|].
  split; [|split].
  - intros c. split; [intros ?%startswith_inv; by eexists|].
    intros (x & ->). apply startswith_app.
  - apply str_drop_app.
  - apply elem_of_filter_categories.
Qed.

(** C3 (as the code has it).  Under a recognized mode: when
    [issue.fields] has no attribute of the configured name the
    normalization raises [AttributeError]; when the attribute is true but
    is no option object (a text, a number, a list) reading its [.value]
    raises [AttributeError], whatever [include_beta] is.  The issue is
    dropped exactly when the attribute is an option of value "Beta" and
    [include_beta] is false; it is emitted with [beta = True] when the value
    is "Beta" and [include_beta] is true; and it is emitted with
    [beta = False] in every other case where the attribute is false
    ([None], empty) or an option of another value. *)
Theorem beta_resolution mode prefix include_beta name issue :
  mode = "components" ∨ mode = "labels" →
  let normalized := roadmap_issue_of mode prefix include_beta name issue in
  match fields_attributes issue !! name with
  | None => normalized = Raise (AttributeError name)
  | Some attr =>
      (normalized = Ok None ↔
       attr = CustomFieldOption "Beta" ∧ include_beta = false)
      ∧ (attr = CustomFieldOption "Beta" → include_beta = true →
         ∃ r, normalized = Ok (Some r) ∧ beta r = true)
      ∧ (truthy attr = true → (∀ v, attr ≠ CustomFieldOption v) →
         normalized = Raise (AttributeError "value"))
      ∧ (attr ≠ CustomFieldOption "Beta" →
         truthy attr = false ∨ (∃ v, attr = CustomFieldOption v) →
         ∃ r, normalized = Ok (Some r) ∧ beta r = false)
  end.
Proof.
  intros Hm. cbn zeta. rewrite roadmap_issue_of_known_mode by done.
  destruct (fields_attributes issue !! name) as [attr|]; [|done]. cbn zeta.
  assert (Hv : value_is_Beta attr = true ↔ attr = CustomFieldOption "Beta").
  { destruct attr as [|v| | |]; cbn; try (split; done).
    rewrite String.eqb_eq. split; [by intros ->|by intros [= ->]]. }
  destruct (attr_is_Beta attr) as [b|e] eqn:E; cbn [mbind result_bind].
  - apply attr_is_Beta_Ok in E as Hb. subst b.
    assert (Hread : ¬ (truthy attr = true ∧ ∀ v, attr ≠ CustomFieldOption v)).
    { intros [Ht Hno].
      assert (attr_is_Beta attr = Raise (AttributeError "value")) as E'
        by (by apply attr_is_Beta_Raise).
      congruence. }
    destruct (value_is_Beta attr) eqn:Eb.
    + rewrite (proj1 Hv eq_refl). destruct include_beta.
      * split; [split; [done|by intros [_ ?]]|]. split; [by eexists|].
        split; [|done]. intros _ Hno. by destruct (Hno "Beta").
      * split; [done|]. split; [done|]. split; [|done].
        intros _ Hno. by destruct (Hno "Beta").
    + assert (attr ≠ CustomFieldOption "Beta") as Hne.
      { by intros ?%Hv. }
      split; [split; [done|by intros [? _]]|]. split; [done|].
      split; [intros Ht Hno; by destruct Hread|].
      intros _ _. by eexists.
  - apply attr_is_Beta_Raise in E as (-> & Ht & Hno).
    split; [split; [done|intros [-> _]; by destruct (Hno "Beta")]|].
    split; [intros ->; by destruct (Hno "Beta")|].
    split; [done|].
    intros _ [Hf|(v & ->)]; [congruence|by destruct (Hno v)].
Qed.

(** C10.  Without a ['quarters'] entry [gen_roadmap_slide_req] raises
    [KeyError] (for ['quarters'] itself when the four entries read before
    it are there) and [generate_roadmap_slides] cannot build a slide for
    any category; yet the value of the entry has no effect on what the
    builder returns. *)
Theorem skeleton_requires_quarters uuid4_draw title cfg w :
  cfg_quarters cfg = None →
  (∃ k, gen_roadmap_slide_req uuid4_draw title cfg w = (Raise (KeyError k), w))
  ∧ (is_Some (cfg_left_header cfg) → is_Some (cfg_left_main cfg) →
     is_Some (cfg_timeline_arrow cfg) → is_Some (cfg_quarter_marker cfg) →
     gen_roadmap_slide_req uuid4_draw title cfg w
     = (Raise (KeyError "quarters"), w))
  ∧ (∀ presentation_id slides_service rest, ∃ k w',
       generate_roadmap_slides uuid4_draw presentation_id slides_service
         (title :: rest) cfg w = (Raise (KeyError k), w')
       ∧ requests_sent w' = requests_sent w)
  ∧ (∀ v v',
       gen_roadmap_slide_req uuid4_draw title (set_quarters (Some v) cfg) w
       = gen_roadmap_slide_req uuid4_draw title (set_quarters (Some v') cfg) w).
Proof.
  intros Hq.
  assert (H1 : ∀ w0, ∃ k, gen_roadmap_slide_req uuid4_draw title cfg w0
                          = (Raise (KeyError k), w0)).
  { intros w0. unfold gen_roadmap_slide_req. rewrite Hq.
    destruct (cfg_left_header cfg), (cfg_left_main cfg),
      (cfg_timeline_arrow cfg), (cfg_quarter_marker cfg);
      eexists; reflexivity. }
  split; [apply H1|]. split; [|split].
  - intros [? E1] [? E2] [? E3] [? E4]. unfold gen_roadmap_slide_req.
    rewrite Hq, E1, E2, E3, E4. reflexivity.
  - intros. unfold generate_roadmap_slides. cbn [roadmap_slides_loop].
    destruct (H1 {| draws := S (S (draws w));
                    requests_sent := requests_sent w |}) as (k & Hk).
    exists k, {| draws := S (S (draws w)); requests_sent := requests_sent w |}.
    split; [|reflexivity].
    unfold mbind at 1, Gen_bind at 1.
    unfold mbind at 1, Gen_bind at 1.
    unfold mbind at 1, Gen_bind at 1.
    unfold gen_header_slide_req at 1.
    unfold mbind at 1, Gen_bind at 1, uuid4 at 1.
    unfold mbind at 1, Gen_bind at 1, uuid4 at 1.
    cbn [draws requests_sent mret Gen_ret].
    unfold mbind at 1, Gen_bind at 1. rewrite Hk. reflexivity.
  - intros v v'. unfold gen_roadmap_slide_req. cbn [set_quarters cfg_quarters
      cfg_left_header cfg_left_main cfg_timeline_arrow cfg_quarter_marker
      cfg_roadmap_box cfg_columns].
    destruct (cfg_left_header cfg), (cfg_left_main cfg),
      (cfg_timeline_arrow cfg), (cfg_quarter_marker cfg); reflexivity.
Qed.

(** ** Sample runs *)

(** C1, as claimed, fails: an issue in status "In Progress" is placed in
    both columns that accept it, not only in the first. *)
Lemma issue_in_two_columns :
  ∃ columns' placed w',
    roadmap_placements sample_uuid [sample_slide]
      (config_with overlapping_columns)
      [roadmap_item "RM-7" "In Progress" "Both" false] sample_world
    = (Ok (columns', placed), w')
    ∧ map (λ p, pb_col_num (box p)) placed = [0; 1]%nat
    ∧ map (λ p, pb_col_num (box p)) placed ≠ [0%nat].
Proof.
  eexists _, _, _. split; [vm_compute; reflexivity|]. split; [reflexivity|done].
Qed.

Lemma placement_columns_witness :
  populate_config (config_with overlapping_columns) sample_box sample_arrow
    sample_header overlapping_columns
  ∧ ∃ columns' placed w',
      roadmap_placements sample_uuid [sample_slide]
        (config_with overlapping_columns)
        [roadmap_item "RM-7" "In Progress" "Both" false;
         roadmap_item "RM-8" "Backlog" "Nowhere" false] sample_world
      = (Ok (columns', placed), w')
      ∧ map (λ p, key (box p)) placed
        = [(sample_slide, roadmap_item "RM-7" "In Progress" "Both" false, 0%nat);
           (sample_slide, roadmap_item "RM-7" "In Progress" "Both" false, 1%nat)].
Proof.
  assert (H : populate_config (config_with overlapping_columns) sample_box
                sample_arrow sample_header overlapping_columns)
    by (constructor; [reflexivity..|discriminate]).
  split; [exact H|].
  destruct (placement_columns sample_uuid _ _ _ _ _ [sample_slide]
              [roadmap_item "RM-7" "In Progress" "Both" false;
               roadmap_item "RM-8" "Backlog" "Nowhere" false]
              sample_world H)
    as (columns' & placed & w' & Hrun & Hkey & _).
  exists columns', placed, w'. split; [exact Hrun|].
  rewrite Hkey. reflexivity.
Defined.



Lemma placement_x_witness :
  populate_config sample_config sample_box sample_arrow sample_header
    sample_columns
  ∧ ∃ columns' placed w',
      roadmap_placements sample_uuid [sample_slide] sample_config
        sample_issues sample_world
      = (Ok (columns', placed), w')
      ∧ map (λ p, (jira_id (pb_issue (box p)), pb_col_num (box p))) placed
        = [("RM-1", 0%nat); ("RM-2", 0%nat); ("RM-3", 1%nat); ("RM-4", 0%nat)]
      ∧ Forall (λ p,
          (pb_width (box p) == 175)%Q
          ∧ (pb_locx (box p) == 200 + 195 * Qnat (pb_col_num (box p)))%Q)
          placed.
Proof.
  assert (H : populate_config sample_config sample_box sample_arrow
                sample_header sample_columns)
    by (constructor; [reflexivity..|discriminate]).
  split; [exact H|].
  destruct (placement_x sample_uuid _ _ _ _ _ [sample_slide] sample_issues
              sample_world H)
    as (columns' & placed & w' & Hrun & Hmap & Hx & H175).
  exists columns', placed, w'. split; [exact Hrun|]. split.
  - rewrite <- (map_map (λ p, (key (box p), pb_width (box p), pb_locx (box p)))
                  (λ t, (jira_id t.1.1.1.2, t.1.1.2))).
    rewrite Hmap. vm_compute. reflexivity.
  - eapply Forall_impl; [exact Hx|].
    intros p (Hw & Hlocx & _). split.
    + rewrite Hw. apply H175; reflexivity.
    + rewrite Hlocx.
      assert (E1 : (lh_locx sample_header + lh_width sample_header
                    + rb_x_padding sample_box == 200)%Q)
        by (vm_compute; reflexivity).
      assert (E2 : ((ta_width sample_arrow
                     - rb_x_padding sample_box
                       * (Qnat (length sample_columns) + 1))
                    / Qnat (length sample_columns)
                    + rb_x_padding sample_box == 195)%Q)
        by (vm_compute; reflexivity).
      rewrite E1, E2. ring.
Defined.

Lemma beta_badge_witness :
  ∃ body element_id w' box_shape badge badge_x,
    gen_roadmap_item_req sample_uuid "slide-1" 175 200 140 sample_box
      "Item RM-2" "Typo toleran" "https://jira.example/browse/RM-2" true
      sample_world = (Ok (body, element_id), w')
    ∧ created_shapes body = [box_shape; badge]
    ∧ shape_translateX badge = Some badge_x
    ∧ (badge_x - 200 == 148)%Q.
Proof.
  destruct (beta_badge_iff_beta sample_uuid "slide-1" 175 200 140 sample_box
              "Item RM-2" "Typo toleran" "https://jira.example/browse/RM-2"
              true sample_world)
    as (body & element_id & w' & box_shape & badges & Hrun & Hshapes & _ & _
        & _ & badge & badge_x & -> & Hx & _ & _ & H148).
  exists body, element_id, w', box_shape, badge, badge_x.
  split; [exact Hrun|]. split; [exact Hshapes|]. split; [exact Hx|].
  apply H148. reflexivity.
Defined.



Lemma component_categories_witness :
  ∃ r,
    roadmap_issue_of "components" "Product: " true "customfield_10042"
      issue_plain = Ok (Some r)
    ∧ product_categories r = ["Search"]
    ∧ (∀ x, x ∈ product_categories r ↔
            "Product: " +:+ x ∈ ["Product: Search"; "Internal"]).
Proof.
  eexists. split; [vm_compute; reflexivity|]. split; [reflexivity|].
  refine (proj2 (proj2 (proj2
    (component_categories "Product: " true "customfield_10042" issue_plain
       _ _)))).
  vm_compute; reflexivity.
Defined.

(** C3, as claimed, fails: the attribute is not there at all, so it is not
    present with the value "Beta", yet the issue is not emitted with
    [beta = False]: the normalization raises [AttributeError]. *)
Lemma beta_attribute_missing :
  fields_attributes issue_without_attribute !! "customfield_10042" = None
  ∧ roadmap_issue_of "components" "Product: " false "customfield_10042"
      issue_without_attribute = Raise (AttributeError "customfield_10042")
  ∧ ¬ ∃ r,
        roadmap_issue_of "components" "Product: " false "customfield_10042"
          issue_without_attribute = Ok (Some r)
        ∧ beta r = false.
Proof.
  split; [reflexivity|]. split; [reflexivity|]. by intros (r & H & _).
Qed.

Lemma beta_resolution_witness :
  ("components" = "components" ∨ "components" = "labels")
  ∧ roadmap_issue_of "components" "Product: " false "customfield_10042"
      issue_beta = Ok None
  ∧ (∃ r, roadmap_issue_of "components" "Product: " true "customfield_10042"
            issue_beta = Ok (Some r) ∧ beta r = true)
  ∧ (∃ r, roadmap_issue_of "components" "Product: " false "customfield_10042"
            issue_plain = Ok (Some r) ∧ beta r = false)
  ∧ roadmap_issue_of "components" "Product: " false "customfield_10042"
      issue_without_attribute = Raise (AttributeError "customfield_10042")
  ∧ roadmap_issue_of "components" "Product: " true "customfield_10042"
      issue_with_text_attribute = Raise (AttributeError "value")
  ∧ roadmap_issue_of "components" "Product: " false "customfield_10042"
      issue_with_text_attribute = Raise (AttributeError "value").
Proof.
  assert (Hm : "components" = "components" ∨ "components" = "labels")
    by (left; reflexivity).
  split; [exact Hm|].
  pose proof (beta_resolution "components" "Product: " false
                "customfield_10042" issue_beta Hm) as H1.
  pose proof (beta_resolution "components" "Product: " true
                "customfield_10042" issue_beta Hm) as H2.
  pose proof (beta_resolution "components" "Product: " false
                "customfield_10042" issue_plain Hm) as H3.
  pose proof (beta_resolution "components" "Product: " false
                "customfield_10042" issue_without_attribute Hm) as H4.
  pose proof (beta_resolution "components" "Product: " true
                "customfield_10042" issue_with_text_attribute Hm) as H5.
  pose proof (beta_resolution "components" "Product: " false
                "customfield_10042" issue_with_text_attribute Hm) as H6.
  cbn zeta in H1, H2, H3, H4, H5, H6.
  change (fields_attributes issue_beta !! "customfield_10042")
    with (Some (CustomFieldOption "Beta")) in H1, H2.
  change (fields_attributes issue_plain !! "customfield_10042")
    with (Some PyNone) in H3.
  change (fields_attributes issue_without_attribute !! "customfield_10042")
    with (@None custom_field) in H4.
  change (fields_attributes issue_with_text_attribute !! "customfield_10042")
    with (Some (PyStr "Beta")) in H5, H6.
  split; [apply H1; split; reflexivity|].
  split; [apply H2; reflexivity|].
  split; [apply H3; [discriminate|left; reflexivity]|].
  split; [exact H4|].
  split; [apply H5; [reflexivity|discriminate]
         |apply H6; [reflexivity|discriminate]].
Defined.

Lemma empty_query_NotFoundError_witness :
  search_issues empty_jira (jql_filter "RM" "Initiative") = []
  ∧ search_issues sample_jira (jql_filter "RM" "Initiative") ≠ []
  ∧ get_roadmap_issues empty_jira "RM" "Initiative" "components" "Product: "
      true "customfield_10042" = Raise NotFoundError
  ∧ generate_roadmap_deck sample_uuid remove_dups empty_jira
      (λ _ _, Ok (JObj [])) sample_config "presentation-1" sample_world
    = (Raise NotFoundError, sample_world)
  ∧ get_roadmap_issues sample_jira "RM" "Initiative" "components" "Product: "
      true "customfield_10042" ≠ Raise NotFoundError.
Proof.
  assert (H0 : search_issues empty_jira (jql_filter "RM" "Initiative") = [])
    by reflexivity.
  assert (H1 : search_issues sample_jira (jql_filter "RM" "Initiative") ≠ [])
    by discriminate.
  split; [exact H0|]. split; [exact H1|].
  destruct (empty_query_NotFoundError empty_jira "RM" "Initiative"
              "components" "Product: " true "customfield_10042")
    as [Hempty _].
  destruct (empty_query_NotFoundError sample_jira "RM" "Initiative"
              "components" "Product: " true "customfield_10042")
    as [_ Hfound].
  destruct (Hempty H0) as [Hget Hdeck].
  split; [exact Hget|]. split; [|exact (Hfound H1)].
  apply Hdeck. reflexivity.
Defined.

(** C7, as claimed, fails: with the unknown mode "tags" and a query that
    finds nothing, the exception is the one for the empty result, not the
    one for the mode. *)
Lemma unknown_mode_empty_query :
  search_issues empty_jira (jql_filter "RM" "Initiative") = []
  ∧ get_roadmap_issues empty_jira "RM" "Initiative" "tags" "Product: " false
      "customfield_10042" = Raise NotFoundError
  ∧ get_roadmap_issues empty_jira "RM" "Initiative" "tags" "Product: " false
      "customfield_10042" ≠ Raise (ConfigurationError "tags").
Proof.
  split; [reflexivity|]. split; [reflexivity|]. discriminate.
Qed.

Lemma unknown_mode_ConfigurationError_witness :
  "tags" ≠ "components" ∧ "tags" ≠ "labels"
  ∧ get_roadmap_issues sample_jira "RM" "Initiative" "tags" "Product: " false
      "customfield_10042" = Raise (ConfigurationError "tags")
  ∧ get_roadmap_issues empty_jira "RM" "Initiative" "tags" "Product: " false
      "customfield_10042" = Raise NotFoundError
  ∧ generate_roadmap_deck sample_uuid remove_dups sample_jira
      (λ _ _, Ok (JObj []))
      (set_quarters (Some (JArr []))
         {| cfg_jira_roadmap_issues :=
              Some (kwargs_of "RM" "Initiative" "tags" "Product: " false
                      "customfield_10042");
            cfg_left_header := Some sample_header;
            cfg_left_main := Some sample_main;
            cfg_timeline_arrow := Some sample_arrow;
            cfg_quarter_marker := Some sample_marker;
            cfg_quarters := None;
            cfg_roadmap_box := Some sample_box;
            cfg_columns := Some sample_columns |})
      "presentation-1" sample_world
    = (Raise (ConfigurationError "tags"), sample_world).
Proof.
  assert (H1 : "tags" ≠ "components") by discriminate.
  assert (H2 : "tags" ≠ "labels") by discriminate.
  split; [exact H1|]. split; [exact H2|].
  destruct (unknown_mode_ConfigurationError sample_jira "RM" "Initiative"
              "tags" "Product: " false "customfield_10042") as [Hs _].
  destruct (unknown_mode_ConfigurationError empty_jira "RM" "Initiative"
              "tags" "Product: " false "customfield_10042") as [He _].
  destruct (Hs H1 H2) as (Hfound & _ & Hdeck).
  destruct (He H1 H2) as (_ & Hnone & _).
  split; [apply Hfound; discriminate|]. split; [apply Hnone; reflexivity|].
  apply (Hdeck sample_uuid remove_dups). reflexivity.
Defined.

Lemma skeleton_requires_quarters_witness :
  cfg_quarters sample_config = None
  ∧ gen_roadmap_slide_req sample_uuid "Search" sample_config sample_world
    = (Raise (KeyError "quarters"), sample_world).
Proof.
  assert (H : cfg_quarters sample_config = None) by reflexivity.
  split; [exact H|].
  destruct (skeleton_requires_quarters sample_uuid "Search" sample_config
              sample_world H) as (_ & Hq & _).
  apply Hq; eexists; reflexivity.
Defined.

(** * Further properties *)

(** ** The normalizer *)

Lemma roadmap_issue_of_Ok mode prefix include_beta name issue o :
  roadmap_issue_of mode prefix include_beta name issue = Ok o →
  (mode = "components" ∨ mode = "labels")
  ∧ is_Some (fields_attributes issue !! name)
  ∧ (o = None ↔ kept include_beta name issue = false)
  ∧ ∀ r, o = Some r →
      jira_id r = issue_id issue ∧ beta r = is_Beta_issue name issue.
Proof.
  intros H.
  assert (Hm : mode = "components" ∨ mode = "labels").
  { destruct (decide (mode = "components")) as [|H1]; [by left|].
    destruct (decide (mode = "labels")) as [|H2]; [by right|].
    by rewrite roadmap_issue_of_unknown_mode in H. }
  split; [exact Hm|]. rewrite roadmap_issue_of_known_mode in H by done.
  unfold kept, is_Beta_issue.
  destruct (fields_attributes issue !! name) as [attr|]; [|done].
  split; [by eexists|]. cbn zeta in H.
  destruct (attr_is_Beta attr) as [b|e] eqn:E; [|done].
  apply attr_is_Beta_Ok in E as ->. cbn [mbind result_bind] in H.
  destruct (value_is_Beta attr), include_beta; simplify_eq; cbn;
    (split; [split; done|]); intros r Hr; by simplify_eq.
Qed.

Lemma normalized_of_kept mode prefix include_beta name found rs :
  Forall2 (λ issue r,
      roadmap_issue_of mode prefix include_beta name issue = Ok r) found rs →
  map jira_id (omap id rs)
  = map issue_id (filter (λ i, Is_true (kept include_beta name i)) found)
  ∧ map beta (omap id rs)
    = map (is_Beta_issue name)
          (filter (λ i, Is_true (kept include_beta name i)) found).
Proof.
  induction 1 as [|issue o found rs H _ IH]; [done|].
  destruct IH as [IH1 IH2].
  apply roadmap_issue_of_Ok in H as (_ & _ & Hnone & Hsome).
  destruct o as [r|].
  - change (omap id (Some r :: rs)) with (r :: omap id rs).
    destruct (Hsome r eq_refl) as [Hid Hb].
    assert (kept include_beta name issue = true) as Hk.
    { destruct (kept include_beta name issue); [done|].
      discriminate (proj2 Hnone eq_refl). }
    rewrite filter_cons_True by (by apply Is_true_true).
    by rewrite !map_cons, Hid, Hb, IH1, IH2.
  - change (omap id (None :: rs)) with (omap id rs).
    rewrite filter_cons_False; [done|].
    rewrite (proj1 Hnone eq_refl). by intros [].
Qed.

(** X1.  When [get_roadmap_issues] returns, its output follows the search
    result in order: it has one entry for each found issue that is kept
    (every issue with [include_beta], otherwise those whose attribute is not
    "Beta"), with the identifier of that issue and its beta flag.  With
    [include_beta] nothing is dropped; without it, no entry is flagged. *)
Theorem normalized_in_query_order jira_service project itype mode prefix
    include_beta name out :
  get_roadmap_issues jira_service project itype mode prefix include_beta name
  = Ok out →
  let found := search_issues jira_service (jql_filter project itype) in
  let emitted := filter (λ i, Is_true (kept include_beta name i)) found in
  map jira_id out = map issue_id emitted
  ∧ map beta out = map (is_Beta_issue name) emitted
  ∧ (include_beta = true → emitted = found)
  ∧ (include_beta = false → Forall (λ r, beta r = false) out).
Proof.
  intros (Hne & rs & Hrs & ->)%get_roadmap_issues_Ok. cbn zeta.
  destruct (normalized_of_kept _ _ _ _ _ _ Hrs) as [Hid Hb].
  split; [exact Hid|]. split; [exact Hb|]. split.
  - intros ->. clear. induction (search_issues _ _) as [|i l IH]; [done|].
    rewrite filter_cons_True by done. by rewrite IH.
  - intros ->. apply Forall_forall. intros r Hr.
    assert (Hin : beta r ∈ map beta (omap id rs))
      by (apply list_elem_of_fmap; by exists r).
    rewrite Hb in Hin. apply list_elem_of_fmap in Hin as (i & -> & Hi).
    apply list_elem_of_filter in Hi as [Hk _]. unfold kept in Hk. cbn in Hk.
    by destruct (is_Beta_issue name i).
Qed.

Lemma roadmap_issue_of_readable mode prefix include_beta name issue :
  mode = "components" ∨ mode = "labels" →
  if beta_readable name issue
  then ∃ o, roadmap_issue_of mode prefix include_beta name issue = Ok o
  else roadmap_issue_of mode prefix include_beta name issue
       = Raise (AttributeError
                  (if has_attribute name issue then "value" else name)).
Proof.
  intros Hm. rewrite roadmap_issue_of_known_mode by done.
  unfold beta_readable, has_attribute.
  destruct (fields_attributes issue !! name) as [attr|] eqn:Ea.
  - rewrite bool_decide_eq_true_2 by (by eexists). cbn zeta.
    destruct (attr_is_Beta attr) as [b|e] eqn:E; cbn [mbind result_bind].
    + assert (negb (truthy attr) || has_dot_value attr = true) as ->.
      { destruct (truthy attr) eqn:Et; [|done].
        destruct attr; try done;
          (assert (attr_is_Beta _ = Raise (AttributeError "value")) as E'
             by (by apply attr_is_Beta_Raise; eauto); congruence). }
      destruct b, include_beta; by eexists.
    + apply attr_is_Beta_Raise in E as (-> & -> & Hno).
      destruct attr; try done. by destruct (Hno value).
  - rewrite bool_decide_eq_false_2; [done|]. by intros [? ?].
Qed.

Lemma roadmap_issues_loop_first_Raise mode prefix include_beta name before
    issue after acc e :
  Forall (λ i, ∃ o,
      roadmap_issue_of mode prefix include_beta name i = Ok o) before →
  roadmap_issue_of mode prefix include_beta name issue = Raise e →
  roadmap_issues_loop mode prefix include_beta name
    (before ++ issue :: after) acc = Raise e.
Proof.
  intros Hb He. revert acc.
  induction Hb as [|i before [o Ho] _ IH]; intros acc; cbn.
  - by rewrite He.
  - rewrite Ho. cbn. apply IH.
Qed.

(** X2.  For a known category mode and a non-empty search result,
    [get_roadmap_issues] returns exactly when every found issue has the
    configured attribute and that attribute is false ([None], empty) or an
    option object.  Otherwise it raises [AttributeError] at the first issue
    that is not so, also when that issue would have been dropped: for the
    name of the attribute when the issue lacks it, for ['value'] when the
    attribute is true and has no [.value]. *)
Theorem normalization_succeeds_iff jira_service project itype mode prefix
    include_beta name :
  mode = "components" ∨ mode = "labels" →
  let found := search_issues jira_service (jql_filter project itype) in
  let normalized :=
    get_roadmap_issues jira_service project itype mode prefix include_beta
      name in
  found ≠ [] →
  (Forall (λ i, Is_true (beta_readable name i)) found →
   ∃ out, normalized = Ok out)
  ∧ (∀ before issue after,
       found = before ++ issue :: after →
       Forall (λ i, Is_true (beta_readable name i)) before →
       beta_readable name issue = false →
       normalized
       = Raise (AttributeError
                  (if has_attribute name issue then "value" else name))).
Proof.
  intros Hm found normalized Hne. subst normalized.
  assert (Hok : ∀ l, Forall (λ i, Is_true (beta_readable name i)) l →
                Forall (λ i, ∃ o,
                  roadmap_issue_of mode prefix include_beta name i = Ok o) l).
  { intros l Hl. eapply Forall_impl; [exact Hl|]. intros i Hi. cbn in Hi.
    pose proof (roadmap_issue_of_readable mode prefix include_beta name i Hm)
      as H.
    by destruct (beta_readable name i). }
  unfold get_roadmap_issues. fold found. split.
  - intros Hall%Hok. destruct found as [|i0 rest] eqn:Ef; [done|].
    clear Hne Ef. generalize (@nil JiraRoadmapIssue) as acc.
    induction Hall as [|i l [o Ho] _ IH]; intros acc; cbn.
    + by eexists.
    + rewrite Ho. cbn. apply IH.
  - intros before issue after Hf Hb%Hok Hi.
    pose proof (roadmap_issue_of_readable mode prefix include_beta name issue
                  Hm) as H.
    rewrite Hi in H.
    destruct found as [|i0 rest] eqn:Ef; [done|]. rewrite Hf.
    by apply roadmap_issues_loop_first_Raise.
Qed.

(** X3.  In mode 'labels' the categories of an emitted issue are the
    labels starting with the prefix, each without it, in label order: [x] is
    a category iff [prefix + x] is a label. *)
Theorem label_categories prefix include_beta name issue r :
  roadmap_issue_of "labels" prefix include_beta name issue = Ok (Some r) →
  product_categories r
  = map (str_drop (String.length prefix))
        (filter (λ c, Is_true (startswith c prefix)) (fields_labels issue))
  ∧ (∀ x, x ∈ product_categories r ↔ prefix +:+ x ∈ fields_labels issue).
Proof.
  intros H. rewrite roadmap_issue_of_known_mode in H by auto.
  assert (Hc : product_categories r
               = filter_categories prefix (fields_labels issue)).
  { destruct (fields_attributes issue !! name) as [attr|]; [|done].
    cbn zeta in H. destruct (attr_is_Beta attr) as [[]|e], include_beta;
      cbn [mbind result_bind] in H; by simplify_eq. }
  rewrite Hc. split; [apply filter_categories_comprehension|].
  apply elem_of_filter_categories.
Qed.

(** ** The skeleton slide *)

Lemma uuid4_run uuid4_draw w :
  uuid4 uuid4_draw w
  = (Ok (uuid4_draw (draws w)),
     {| draws := S (draws w); requests_sent := requests_sent w |}).
Proof. reflexivity. Qed.

Lemma quarter_marker_loop_run uuid4_draw slide_id qm qlx qw tbw ys columns k w :
  quarter_marker_loop uuid4_draw slide_id qm qlx qw tbw ys k columns w
  = (Ok (marker_reqs uuid4_draw slide_id qm qlx qw tbw ys k (draws w) columns),
     {| draws := 2 * length columns + draws w;
        requests_sent := requests_sent w |}).
Proof.
  revert k w. induction columns as [|col rest IH]; intros k w.
  - by destruct w.
  - cbn [quarter_marker_loop marker_reqs].
    erewrite Gen_bind_Ok by apply uuid4_run.
    erewrite Gen_bind_Ok by apply uuid4_run.
    erewrite Gen_bind_Ok by apply IH.
    cbn [draws requests_sent length]. unfold mret, Gen_ret.
    replace (2 * S (length rest) + draws w)%nat
      with (2 * length rest + S (S (draws w)))%nat by lia.
    reflexivity.
Qed.

(** Solves [created_before_use] on a body given request by request. *)
Ltac solve_created_before_use :=
  cbn [take app created_before_use];
  repeat split;
  lazymatch goal with
  | |- refers_within _ _ =>
      unfold refers_within; cbn;
      first [exact I | set_solver]
  | |- True => exact I
  end.

Lemma gen_roadmap_slide_req_run uuid4_draw title cfg lh lm arrow qm quarters rb
    columns w :
  skeleton_config cfg lh lm arrow qm quarters rb columns →
  columns ≠ [] →
  ∃ body,
    gen_roadmap_slide_req uuid4_draw title cfg w
    = (Ok (body, uuid4_draw (S (draws w))),
       {| draws := 2 * length columns + (5 + draws w);
          requests_sent := requests_sent w |})
    ∧ length (take 14 body) = 14%nat
    ∧ drop 14 body
      = marker_reqs uuid4_draw (uuid4_draw (S (draws w))) qm
          (quarter_locx_of rb lh) (quarter_width_of rb arrow columns) 200
          (arrow_start_locy lh) 0 (5 + draws w) columns
    ∧ (∀ known, created_before_use known (take 14 body))
    ∧ uuid4_draw (S (draws w)) ∈ body_created_ids (take 14 body)
    ∧ created_shapes (take 14 body)
      = [Json.createShape (uuid4_draw (3 + draws w)) (lm_shape_type lm)
           (uuid4_draw (S (draws w))) (lm_height lm) (lm_width lm)
           (lh_locx lh) (lm_locy lm);
         Json.createShape (uuid4_draw (2 + draws w)) (lh_shape_type lh)
           (uuid4_draw (S (draws w))) (lh_height lh) (lh_width lh)
           (lh_locx lh) (lh_locy lh)]
    ∧ inserted_texts (take 14 body)
      = [title; newline +:+ newline +:+ newline +:+ lm_text lm; title]
    ∧ (head body ≫= request_kind) = Some "createSlide"
    ∧ (head body ≫= request_objectId) = Some (uuid4_draw (S (draws w))).
Proof.
  intros [H1 H2 H3 H4 H5 H6 H7] Hne. unfold gen_roadmap_slide_req.
  rewrite H1, H2, H3, H4, H5, H6, H7. cbn [subscript].
  do 7 (erewrite Gen_bind_Ok by apply lift_Ok).
  do 5 (erewrite Gen_bind_Ok by apply uuid4_run).
  unfold py_div. rewrite (Qnat_nonzero _ Hne).
  erewrite Gen_bind_Ok by apply lift_Ok.
  erewrite Gen_bind_Ok by apply quarter_marker_loop_run.
  cbn [draws requests_sent]. unfold mret, Gen_ret.
  eexists. split; [reflexivity|].
  split; [reflexivity|]. split; [reflexivity|].
  split; [|split; [vm_compute; left|repeat split; reflexivity]].
  intros known. solve_created_before_use.
Qed.

Lemma created_before_use_app known b1 b2 :
  created_before_use known b1 →
  (∀ known', known ⊆ known' → body_created_ids b1 ⊆ known' →
             created_before_use known' b2) →
  created_before_use known (b1 ++ b2).
Proof.
  intros H1 H2. revert known H1 H2.
  induction b1 as [|j b1 IH]; intros known H1 H2.
  - apply H2; [done|]. intros x Hx. inversion Hx.
  - destruct H1 as [Hj H1]. split; [exact Hj|]. apply IH; [done|].
    intros known' Hk Hb. apply H2.
    + intros x Hx. apply Hk, elem_of_app. by right.
    + intros x Hx. change (x ∈ created_ids j ++ body_created_ids b1) in Hx.
      apply elem_of_app in Hx as [Hx|Hx]; [|by apply Hb].
      apply Hk, elem_of_app. by left.
Qed.

Lemma created_before_use_app_any known b1 b2 :
  created_before_use known b1 →
  (∀ known', created_before_use known' b2) →
  created_before_use known (b1 ++ b2).
Proof. intros H1 H2. apply created_before_use_app; [done|]. intros. apply H2. Qed.

Lemma marker_reqs_created_before_use uuid4_draw slide_id qm qlx qw tbw ys
    columns k d known :
  slide_id ∈ known →
  created_before_use known
    (marker_reqs uuid4_draw slide_id qm qlx qw tbw ys k d columns).
Proof.
  revert k d known. induction columns as [|col rest IH];
    intros k d known Hin; [done|].
  cbn [marker_reqs]. apply created_before_use_app.
  - unfold quarter_marker_req. solve_created_before_use.
  - intros known' Hk _. by apply IH, Hk.
Qed.

Lemma marker_reqs_length uuid4_draw slide_id qm qlx qw tbw ys columns k d :
  length (marker_reqs uuid4_draw slide_id qm qlx qw tbw ys k d columns)
  = (6 * length columns)%nat.
Proof.
  revert k d. induction columns as [|col rest IH]; intros k d; [done|].
  cbn [marker_reqs]. rewrite length_app, IH. cbn [length].
  unfold quarter_marker_req. cbn [length]. lia.
Qed.


Lemma marker_reqs_texts uuid4_draw slide_id qm qlx qw tbw ys columns k d :
  inserted_texts (marker_reqs uuid4_draw slide_id qm qlx qw tbw ys k d columns)
  = map label columns.
Proof.
  revert k d. induction columns as [|col rest IH]; intros k d; [done|].
  cbn [marker_reqs]. unfold inserted_texts. rewrite omap_app.
  fold (inserted_texts (marker_reqs uuid4_draw slide_id qm qlx qw tbw ys
                          (S k) (S (S d)) rest)).
  rewrite IH. reflexivity.
Qed.


(** X4.  With its seven configuration entries present and one column at
    least, [gen_roadmap_slide_req] returns: it draws [5 + 2n] identifiers
    for [n] columns and sends nothing; the body has [14 + 6n] requests, the
    first of which creates the slide whose identifier is returned; every
    request but the one that creates the slide refers to something created
    earlier in the body, be it the page a shape or line is put on or the
    element a request writes to; and the texts inserted are the title, the
    main text after three newlines, the title again and the column labels
    in order. *)
Theorem skeleton_slide_built uuid4_draw title cfg lh lm arrow qm quarters rb
    columns w :
  skeleton_config cfg lh lm arrow qm quarters rb columns →
  columns ≠ [] →
  ∃ body slide_id w',
    gen_roadmap_slide_req uuid4_draw title cfg w = (Ok (body, slide_id), w')
    ∧ draws w' = (draws w + 5 + 2 * length columns)%nat
    ∧ requests_sent w' = requests_sent w
    ∧ length body = (14 + 6 * length columns)%nat
    ∧ (head body ≫= request_kind) = Some "createSlide"
    ∧ (head body ≫= request_objectId) = Some slide_id
    ∧ created_before_use [] body
    ∧ inserted_texts body
      = [title; newline +:+ newline +:+ newline +:+ lm_text lm; title]
        ++ map label columns.
Proof.
  intros Hcfg Hne.
  destruct (gen_roadmap_slide_req_run uuid4_draw title _ _ _ _ _ _ _ _ w
              Hcfg Hne)
    as (body & Hrun & Hlen & Hdrop & Hcbu & Hslide & _ & Htexts & Hkind & Hid).
  exists body, (uuid4_draw (S (draws w))). eexists. split; [exact Hrun|].
  cbn [draws requests_sent]. split; [lia|]. split; [done|].
  split; [|split; [done|split; [done|split]]].
  - rewrite <- (take_drop 14 body).
    by rewrite length_app, Hlen, Hdrop, marker_reqs_length.
  - rewrite <- (take_drop 14 body), Hdrop.
    apply created_before_use_app; [apply Hcbu|].
    intros known' _ Hb. apply marker_reqs_created_before_use. by apply Hb.
  - rewrite <- (take_drop 14 body).
    by rewrite inserted_texts_app, Htexts, Hdrop, marker_reqs_texts.
Qed.

(** X5.  With an empty list of columns both builders divide by
    [len(columns_config)]: [gen_roadmap_slide_req] and the allocation of
    [populate_roadmap_with_issues] raise [ZeroDivisionError], the latter
    before anything is drawn or sent. *)
Theorem no_columns_ZeroDivisionError uuid4_draw cfg lh lm arrow qm quarters rb
    title slides issues w :
  skeleton_config cfg lh lm arrow qm quarters rb [] →
  fst (gen_roadmap_slide_req uuid4_draw title cfg w) = Raise ZeroDivisionError
  ∧ roadmap_placements uuid4_draw slides cfg issues w
    = (Raise ZeroDivisionError, w).
Proof.
  intros [H1 H2 H3 H4 H5 H6 H7]. split.
  - unfold gen_roadmap_slide_req.
    rewrite H1, H2, H3, H4, H5, H6, H7. reflexivity.
  - unfold roadmap_placements. rewrite H1, H3, H6, H7. reflexivity.
Qed.


(** ** What the allocation reads *)

(** X10.  The allocation of [populate_roadmap_with_issues] reads the
    entries 'roadmap_box', 'timeline_arrow', 'left_header' and 'columns' in
    that order: the first one missing raises its [KeyError], an empty list
    of columns raises [ZeroDivisionError], both with nothing drawn; with the
    four present and a column it returns and sends nothing itself. *)
Theorem populate_reads_four_entries uuid4_draw slides cfg issues w :
  match cfg_roadmap_box cfg, cfg_timeline_arrow cfg, cfg_left_header cfg,
        cfg_columns cfg with
  | None, _, _, _ =>
      roadmap_placements uuid4_draw slides cfg issues w
      = (Raise (KeyError "roadmap_box"), w)
  | Some _, None, _, _ =>
      roadmap_placements uuid4_draw slides cfg issues w
      = (Raise (KeyError "timeline_arrow"), w)
  | Some _, Some _, None, _ =>
      roadmap_placements uuid4_draw slides cfg issues w
      = (Raise (KeyError "left_header"), w)
  | Some _, Some _, Some _, None =>
      roadmap_placements uuid4_draw slides cfg issues w
      = (Raise (KeyError "columns"), w)
  | Some _, Some _, Some _, Some [] =>
      roadmap_placements uuid4_draw slides cfg issues w
      = (Raise ZeroDivisionError, w)
  | Some _, Some _, Some _, Some (_ :: _) =>
      ∃ r w', roadmap_placements uuid4_draw slides cfg issues w = (Ok r, w')
              ∧ requests_sent w' = requests_sent w
  end.
Proof.
  destruct (cfg_roadmap_box cfg) as [rb|] eqn:E1;
    [|unfold roadmap_placements; by rewrite E1].
  destruct (cfg_timeline_arrow cfg) as [arrow|] eqn:E2;
    [|unfold roadmap_placements; by rewrite E1, E2].
  destruct (cfg_left_header cfg) as [lh|] eqn:E3;
    [|unfold roadmap_placements; by rewrite E1, E2, E3].
  destruct (cfg_columns cfg) as [[|col cols]|] eqn:E4;
    [unfold roadmap_placements; by rewrite E1, E2, E3, E4|
    |unfold roadmap_placements; by rewrite E1, E2, E3, E4].
  destruct (roadmap_placements_run uuid4_draw cfg rb arrow lh (col :: cols)
              slides issues w) as (columns' & per_slide & w' & Hrun & _ & _ & Hs);
    [by constructor|].
  by eexists _, _.
Qed.

(** ** Identifiers *)

Lemma world_eq {A} (r : result A) d1 d2 sent :
  d1 = d2 →
  (r, {| draws := d1; requests_sent := sent |})
  = (r, {| draws := d2; requests_sent := sent |}).
Proof. by intros ->. Qed.

Section Trace.

Variable uuid4_draw : nat → string.
Variables (rb : roadmap_box_config) (bw bx bY : Q).

Abbreviation mk := (box_at rb bw bx bY).

Lemma item_req_body_created page_id width locx locy tagline desc link eid :
  body_created_ids
    (item_req_body page_id width locx locy rb tagline desc link eid)
  = [eid].
Proof. reflexivity. Qed.

Lemma beta_flag_req_body_created page_id width locx locy badge_id :
  body_created_ids (beta_flag_req_body page_id width locx locy rb badge_id)
  = [badge_id].
Proof. reflexivity. Qed.

Lemma body_created_ids_app b1 b2 :
  body_created_ids (b1 ++ b2) = body_created_ids b1 ++ body_created_ids b2.
Proof. apply bind_app. Qed.

Lemma draws_of_cons b boxes :
  draws_of (b :: boxes)
  = ((if beta (pb_issue b) then 2 else 1) + draws_of boxes)%nat.
Proof. reflexivity. Qed.

Lemma draws_of_app b1 b2 : draws_of (b1 ++ b2) = (draws_of b1 + draws_of b2)%nat.
Proof. apply sum_list_with_app. Qed.

Lemma place_in_columns_trace slide issue columns col_num w :
  ∃ placed,
    place_in_columns uuid4_draw rb bw bx bY slide issue col_num columns w
    = (Ok (bump issue columns, placed),
       {| draws := draws_of (map box placed) + draws w;
          requests_sent := requests_sent w |})
    ∧ map box placed = boxes_in_columns (mk slide issue) issue col_num columns
    ∧ placed ≫= (λ p, body_created_ids (roadmap_shape p))
      = map uuid4_draw (seq (draws w) (draws_of (map box placed))).
Proof.
  revert col_num w. induction columns as [|col rest IH]; intros col_num w.
  - exists []. split; [by destruct w|]. done.
  - cbn [place_in_columns boxes_in_columns bump map]. unfold accepts.
    destruct (bool_decide (jira_quarter issue ∈ jira_statuses col)).
    + erewrite Gen_bind_Ok by apply gen_roadmap_item_req_run.
      cbv beta iota.
      match goal with
      | |- context [@mbind Gen _ _ _ _ (place_in_columns _ _ _ _ _ _ _ _ _) ?w1] =>
          destruct (IH (S col_num) w1) as (placed & Hrun & Hbox & Hids)
      end.
      erewrite Gen_bind_Ok by exact Hrun.
      eexists (_ :: placed). unfold mret, Gen_ret.
      cbn [draws requests_sent] in *.
      split; [|split].
      * apply world_eq. cbn [map box]. rewrite draws_of_cons.
        cbn [pb_issue]. lia.
      * cbn [map box]. by rewrite Hbox.
      * rewrite bind_cons, Hids. cbn [map box roadmap_shape].
        rewrite draws_of_cons. cbn [pb_issue].
        rewrite seq_app, map_app, (Nat.add_comm (draws w)). f_equal.
        rewrite body_created_ids_app, item_req_body_created.
        destruct (beta issue);
          [rewrite beta_flag_req_body_created|]; reflexivity.
    + destruct (IH (S col_num) w) as (placed & Hrun & Hbox & Hids).
      erewrite Gen_bind_Ok by exact Hrun.
      by exists placed.
Qed.

Lemma place_issues_trace slide issues columns w :
  ∃ placed,
    place_issues uuid4_draw rb bw bx bY slide issues columns w
    = (Ok (bump_all slide issues columns, placed),
       {| draws := draws_of (map box placed) + draws w;
          requests_sent := requests_sent w |})
    ∧ placed ≫= (λ p, body_created_ids (roadmap_shape p))
      = map uuid4_draw (seq (draws w) (draws_of (map box placed))).
Proof.
  revert columns w. induction issues as [|issue rest IH]; intros columns w.
  - exists []. split; [by destruct w|done].
  - cbn [place_issues bump_all foldl]. unfold on_slide.
    destruct (bool_decide (product_category slide ∈ product_categories issue)).
    + destruct (place_in_columns_trace slide issue columns 0 w)
        as (p1 & Hrun1 & _ & Hids1).
      erewrite Gen_bind_Ok by exact Hrun1. cbv beta iota.
      match goal with
      | |- context [@mbind Gen _ _ _ _ (place_issues _ _ _ _ _ _ _ _) ?w1] =>
          destruct (IH (bump issue columns) w1) as (p2 & Hrun2 & Hids2)
      end.
      erewrite Gen_bind_Ok by exact Hrun2.
      exists (p1 ++ p2). unfold mret, Gen_ret. cbn [draws requests_sent] in *.
      split.
      * apply world_eq. rewrite map_app, draws_of_app. lia.
      * rewrite bind_app, Hids1, Hids2, map_app, draws_of_app, seq_app, map_app.
        by rewrite (Nat.add_comm (draws w)).
    + apply IH.
Qed.

Lemma place_on_slides_trace slides issues columns w :
  ∃ placed,
    place_on_slides uuid4_draw rb bw bx bY slides issues columns w
    = (Ok (final_columns slides issues columns, placed),
       {| draws := draws_of (map box placed) + draws w;
          requests_sent := requests_sent w |})
    ∧ placed ≫= (λ p, body_created_ids (roadmap_shape p))
      = map uuid4_draw (seq (draws w) (draws_of (map box placed))).
Proof.
  revert columns w. induction slides as [|slide rest IH]; intros columns w.
  - exists []. split; [by destruct w|done].
  - cbn [place_on_slides final_columns foldl].
    destruct (place_issues_trace slide issues (map (set_count 0) columns) w)
      as (p1 & Hrun1 & Hids1).
    erewrite Gen_bind_Ok by exact Hrun1. cbv beta iota.
    match goal with
    | |- context [@mbind Gen _ _ _ _ (place_on_slides _ _ _ _ _ _ _ ?c1) ?w1] =>
        destruct (IH c1 w1) as (p2 & Hrun2 & Hids2)
    end.
    erewrite Gen_bind_Ok by exact Hrun2.
    exists (p1 ++ p2). unfold mret, Gen_ret. cbn [draws requests_sent] in *.
    split.
    + apply world_eq. rewrite map_app, draws_of_app. lia.
    + rewrite bind_app, Hids1, Hids2, map_app, draws_of_app, seq_app, map_app.
      by rewrite (Nat.add_comm (draws w)).
Qed.

End Trace.

Lemma roadmap_placements_trace uuid4_draw cfg rb arrow lh columns slides
    issues w :
  populate_config cfg rb arrow lh columns →
  ∃ placed,
    roadmap_placements uuid4_draw slides cfg issues w
    = (Ok (final_columns slides issues columns, placed),
       {| draws := draws_of (map box placed) + draws w;
          requests_sent := requests_sent w |})
    ∧ placed ≫= (λ p, body_created_ids (roadmap_shape p))
      = map uuid4_draw (seq (draws w) (draws_of (map box placed))).
Proof.
  intros [Hrb Harrow Hlh Hcols Hne]. unfold roadmap_placements.
  rewrite Hrb, Harrow, Hlh, Hcols. cbn [subscript].
  do 4 (erewrite Gen_bind_Ok by apply lift_Ok).
  unfold py_div. rewrite (Qnat_nonzero _ Hne).
  erewrite Gen_bind_Ok by apply lift_Ok.
  apply place_on_slides_trace.
Qed.

(** X11.  The allocation draws one identifier for each box and one more
    for each badge.  The identifiers of the objects the boxes create are the
    identifiers drawn, in order; the first object of a placement is its box,
    whose identifier is the one recorded for the placement; and when no two
    draws give the same identifier, no two created objects share one. *)
Theorem population_identifiers uuid4_draw cfg rb arrow lh columns slides
    issues w :
  populate_config cfg rb arrow lh columns →
  ∃ columns' placed w',
    roadmap_placements uuid4_draw slides cfg issues w
    = (Ok (columns', placed), w')
    ∧ draws w' = (draws w + draws_of (map box placed))%nat
    ∧ placed ≫= (λ p, body_created_ids (roadmap_shape p))
      = map uuid4_draw (seq (draws w) (draws w' - draws w))
    ∧ Forall (λ p,
        head (body_created_ids (roadmap_shape p)) = Some (shape_id p)
        ∧ length (body_created_ids (roadmap_shape p))
          = (if beta (pb_issue (box p)) then 2 else 1)%nat) placed
    ∧ ((∀ i j, uuid4_draw i = uuid4_draw j → i = j) →
       NoDup (placed ≫= (λ p, body_created_ids (roadmap_shape p)))).
Proof.
  intros Hcfg.
  destruct (roadmap_placements_trace uuid4_draw _ _ _ _ _ slides issues w Hcfg)
    as (placed & Hrun & Hids).
  destruct (roadmap_placements_run uuid4_draw _ _ _ _ _ slides issues w Hcfg)
    as (columns2 & per_slide & w2 & Hrun2 & _ & Hbuilt & _).
  rewrite Hrun in Hrun2. injection Hrun2 as _ Hp _. rewrite <- Hp in Hbuilt.
  eexists _, placed, _. split; [exact Hrun|]. cbn [draws].
  split; [lia|].
  replace (draws_of (map box placed) + draws w - draws w)%nat
    with (draws_of (map box placed)) by lia.
  split; [exact Hids|]. split.
  - eapply Forall_impl; [exact Hbuilt|]. intros p (badge_id & ->)%built_shape.
    rewrite body_created_ids_app, item_req_body_created.
    destruct (beta (pb_issue (box p)));
      [by rewrite beta_flag_req_body_created|done].
  - intros Hinj. rewrite Hids. apply NoDup_fmap_2; [|apply NoDup_seq].
    intros i j. apply Hinj.
Qed.

(** ** The counters left in the configuration *)

Lemma bump_lookup issue cols c col :
  cols !! c = Some col →
  bump issue cols !! c
  = Some (if accepts col issue then set_count (count col + 1) col else col).
Proof. intros H. unfold bump. by rewrite list_lookup_fmap, H. Qed.

Lemma bump_all_lookup slide issues cols c col :
  cols !! c = Some col →
  bump_all slide issues cols !! c
  = Some (set_count
            (count col
             + Z.of_nat (length (filter
                 (λ i, Is_true (on_slide slide i && accepts col i)) issues)))
            col).
Proof.
  unfold bump_all. revert cols col.
  induction issues as [|issue rest IH]; intros cols col Hc.
  - cbn [foldl filter length]. rewrite filter_nil. cbn [length Z.of_nat].
    rewrite Z.add_0_r. by destruct col.
  - cbn [foldl]. destruct (on_slide slide issue) eqn:Eon.
    + erewrite IH by (by apply bump_lookup).
      destruct (accepts col issue) eqn:Eacc.
      * rewrite filter_cons_True by (by rewrite Eon, Eacc).
        change (accepts (set_count (count col + 1) col)) with (accepts col).
        cbn [length]. unfold set_count. cbn [label jira_statuses count].
        do 2 f_equal. lia.
      * rewrite filter_cons_False by (rewrite Eon, Eacc; intros []). done.
    + rewrite filter_cons_False by (rewrite Eon; intros []). by apply IH.
Qed.

Lemma reset_final_columns slides issues columns :
  map (set_count 0) (final_columns slides issues columns)
  = map (set_count 0) columns.
Proof.
  unfold final_columns. revert columns.
  induction slides as [|slide rest IH]; intros columns; [done|].
  cbn [foldl]. rewrite IH, reset_bump_all, map_map. by apply map_ext.
Qed.

(** X12.  The allocation leaves labels and statuses of the columns as
    they were and returns the counters as the last slide left them: with no
    slide the columns are unchanged, otherwise the counter of a column is
    the number of issues of the last slide's category that the column
    accepts. *)
Theorem counters_left_in_config uuid4_draw cfg rb arrow lh columns slides
    issues w :
  populate_config cfg rb arrow lh columns →
  ∃ columns' placed w',
    roadmap_placements uuid4_draw slides cfg issues w
    = (Ok (columns', placed), w')
    ∧ map label columns' = map label columns
    ∧ map jira_statuses columns' = map jira_statuses columns
    ∧ (slides = [] → columns' = columns)
    ∧ (∀ earlier slide c col,
         slides = earlier ++ [slide] → columns !! c = Some col →
         count <$> columns' !! c
         = Some (Z.of_nat (length (filter
                   (λ i, product_category slide ∈ product_categories i
                         ∧ jira_quarter i ∈ jira_statuses col) issues)))).
Proof.
  intros Hcfg.
  destruct (roadmap_placements_trace uuid4_draw _ _ _ _ _ slides issues w Hcfg)
    as (placed & Hrun & _).
  eexists _, placed, _. split; [exact Hrun|].
  pose proof (reset_final_columns slides issues columns) as Hreset.
  split; [|split; [|split]].
  - apply (f_equal (map label)) in Hreset. rewrite !map_map in Hreset.
    exact Hreset.
  - apply (f_equal (map jira_statuses)) in Hreset. rewrite !map_map in Hreset.
    exact Hreset.
  - by intros ->.
  - intros earlier slide c col -> Hc. unfold final_columns.
    rewrite foldl_app. cbn [foldl].
    fold (final_columns earlier issues columns).
    rewrite reset_final_columns.
    erewrite bump_all_lookup by (by rewrite list_lookup_fmap, Hc).
    cbn [fmap option_fmap option_map count set_count]. rewrite Z.add_0_l.
    do 3 f_equal. apply list_filter_iff. intros i. unfold on_slide, accepts.
    cbn [jira_statuses set_count].
    rewrite andb_True, !bool_decide_spec. done.
Qed.

(** ** Columns with disjoint statuses *)

Lemma disjoint_columns_tail col rest :
  disjoint_columns (col :: rest) → disjoint_columns rest.
Proof.
  intros H c1 c2 col1 col2 status H1 H2 Hs1 Hs2.
  assert (S c1 = S c2) by (by eapply (H (S c1) (S c2))). lia.
Qed.

Lemma matching_columns_none issue cols :
  (∀ col, col ∈ cols → jira_quarter issue ∉ jira_statuses col) →
  matching_columns issue cols = [].
Proof.
  intros H. destruct (matching_columns issue cols) as [|c l] eqn:E; [done|].
  assert (Hc : c ∈ matching_columns issue cols) by (rewrite E; by left).
  apply elem_of_matching_columns in Hc as (col & Hl & Hq).
  destruct (H col); [by eapply list_elem_of_lookup_2|done].
Qed.

Lemma matching_columns_disjoint issue cols :
  disjoint_columns cols →
  matching_columns issue cols
  = match list_find (λ col, jira_quarter issue ∈ jira_statuses col) cols with
    | Some (c, _) => [c]
    | None => []
    end.
Proof.
  induction cols as [|col rest IH]; intros Hd; [done|].
  cbn [matching_columns list_find]. unfold accepts.
  destruct (decide (jira_quarter issue ∈ jira_statuses col)) as [Hin|Hin].
  - rewrite bool_decide_eq_true_2 by done.
    rewrite matching_columns_none; [done|].
    intros col2 [c2 Hc2]%list_elem_of_lookup_1 Hin2.
    by specialize (Hd 0%nat (S c2) col col2 _ eq_refl Hc2 Hin Hin2).
  - rewrite bool_decide_eq_false_2 by done.
    rewrite IH by (by eapply disjoint_columns_tail). cbn [app].
    by destruct (list_find _ rest) as [[c ?]|].
Qed.

(** X13.  When no status is accepted by two columns, every issue is
    placed at most once on a slide: in the first column accepting its status
    when its categories contain the category of the slide, nowhere
    otherwise; slides and issues in order. *)
Theorem disjoint_columns_first_match uuid4_draw cfg rb arrow lh columns slides
    issues w :
  populate_config cfg rb arrow lh columns →
  disjoint_columns columns →
  ∃ columns' placed w',
    roadmap_placements uuid4_draw slides cfg issues w
    = (Ok (columns', placed), w')
    ∧ map (λ p, key (box p)) placed
      = (slides ≫= λ slide, issues ≫= λ issue,
           if bool_decide (product_category slide ∈ product_categories issue)
           then match list_find
                        (λ col, jira_quarter issue ∈ jira_statuses col)
                        columns with
                | Some (c, _) => [(slide, issue, c)]
                | None => []
                end
           else []).
Proof.
  intros Hcfg Hd.
  destruct (roadmap_placements_run uuid4_draw _ _ _ _ _ slides issues w Hcfg)
    as (columns' & per_slide & w' & Hrun & Hbox & _ & _).
  exists columns', (concat per_slide), w'. split; [done|].
  erewrite (concat_per_slide (λ p, key (box p))).
  2: { eapply Forall2_impl; [exact Hbox|]. intros slide ps H. cbn beta.
       rewrite <- (boxes_of_slide_key rb (box_width rb arrow columns)
                     (box_origin_x rb lh) (box_origin_y lh)), <- H.
       by rewrite map_map. }
  apply list_bind_ext; [|done]. intros slide.
  apply list_bind_ext; [|done]. intros issue. unfold on_slide.
  destruct (bool_decide _); [|done].
  rewrite matching_columns_disjoint by done.
  by destruct (list_find _ columns) as [[c ?]|].
Qed.

(** ** The two batches *)

Lemma updateSlides_run service presentation_id body w :
  updateSlides service presentation_id body w
  = (service presentation_id body,
     {| draws := draws w;
        requests_sent := requests_sent w ++ [(presentation_id, body)] |}).
Proof. reflexivity. Qed.




Lemma gen_header_slide_req_run uuid4_draw title w :
  ∃ body,
    gen_header_slide_req uuid4_draw title w
    = (Ok (body, uuid4_draw (S (draws w))),
       {| draws := 2 + draws w; requests_sent := requests_sent w |})
    ∧ length body = 2%nat
    ∧ (∀ known, created_before_use known body)
    ∧ Forall (λ j, is_Some (request_kind j)) body
    ∧ inserted_texts body = [title].
Proof.
  eexists. split; [reflexivity|]. split; [reflexivity|].
  split; [|split; [repeat constructor; by eexists|reflexivity]].
  intros known. solve_created_before_use.
Qed.

Lemma slide_requests uuid4_draw title cfg lh lm arrow qm quarters rb
    columns w :
  skeleton_config cfg lh lm arrow qm quarters rb columns →
  columns ≠ [] →
  ∃ body,
    gen_roadmap_slide_req uuid4_draw title cfg w
    = (Ok (body, uuid4_draw (S (draws w))),
       {| draws := 2 * length columns + (5 + draws w);
          requests_sent := requests_sent w |})
    ∧ length body = (14 + 6 * length columns)%nat
    ∧ (∀ known, created_before_use known body)
    ∧ (head body ≫= request_kind) = Some "createSlide"
    ∧ (head body ≫= request_objectId) = Some (uuid4_draw (S (draws w))).
Proof.
  intros Hcfg Hne.
  destruct (gen_roadmap_slide_req_run uuid4_draw title _ _ _ _ _ _ _ _ w
              Hcfg Hne)
    as (body & Hrun & Hlen & Hdrop & Hcbu & Hslide & _ & _ & Hkind & Hid).
  exists body. split; [exact Hrun|]. split; [|split; [|done]].
  - rewrite <- (take_drop 14 body).
    by rewrite length_app, Hlen, Hdrop, marker_reqs_length.
  - intros known. rewrite <- (take_drop 14 body), Hdrop.
    apply created_before_use_app; [apply Hcbu|].
    intros known' _ Hb. apply marker_reqs_created_before_use. by apply Hb.
Qed.

Lemma roadmap_slides_loop_run uuid4_draw cfg lh lm arrow qm quarters rb columns
    categories w :
  skeleton_config cfg lh lm arrow qm quarters rb columns →
  columns ≠ [] →
  let per_slide := (16 + 6 * length columns)%nat in
  let ids := (7 + 2 * length columns)%nat in
  ∃ slide_reqs slides,
    roadmap_slides_loop uuid4_draw cfg categories w
    = (Ok (slide_reqs, slides),
       {| draws := length categories * ids + draws w;
          requests_sent := requests_sent w |})
    ∧ length slide_reqs = (length categories * per_slide)%nat
    ∧ map title slides = categories
    ∧ map product_category slides = categories
    ∧ (∀ known, created_before_use known slide_reqs)
    ∧ (∀ i slide, slides !! i = Some slide →
         google_slide_id slide = uuid4_draw (draws w + i * ids + 3)
         ∧ (slide_reqs !! (i * per_slide + 2)%nat ≫= request_kind)
           = Some "createSlide"
         ∧ (slide_reqs !! (i * per_slide + 2)%nat ≫= request_objectId)
           = Some (google_slide_id slide)).
Proof.
  intros Hcfg Hne per_slide ids. revert w.
  induction categories as [|category rest IH]; intros w.
  - exists [], []. split; [by destruct w|]. by repeat split.
  - cbn [roadmap_slides_loop].
    destruct (gen_header_slide_req_run uuid4_draw category w)
      as (hbody & Hh & Hhlen & Hhcbu & _ & _).
    erewrite Gen_bind_Ok by exact Hh. cbv beta iota.
    match goal with
    | |- context [@mbind Gen _ _ _ _ (gen_roadmap_slide_req _ _ _) ?w1] =>
        destruct (slide_requests uuid4_draw category _ _ _ _ _ _ _ _ w1
                    Hcfg Hne) as (sbody & Hs & Hslen & Hscbu & Hskind & Hsid)
    end.
    erewrite Gen_bind_Ok by exact Hs. cbv beta iota.
    match goal with
    | |- context [@mbind Gen _ _ _ _ (roadmap_slides_loop _ _ _) ?w2] =>
        destruct (IH w2) as (reqs & slides & Hrun & Hlen & Ht & Hc & Hcbu & Hi)
    end.
    erewrite Gen_bind_Ok by exact Hrun. cbv beta iota.
    eexists _, _. unfold mret, Gen_ret. cbn [draws requests_sent] in *.
    split; [apply world_eq; subst ids; cbn [length]; lia|].
    split; [rewrite !length_app, Hhlen, Hslen, Hlen; subst per_slide;
            cbn [length]; lia|].
    split; [cbn [map title]; by rewrite Ht|].
    split; [cbn [map product_category]; by rewrite Hc|].
    split.
    { intros known. apply created_before_use_app_any; [apply Hhcbu|].
      intros. apply created_before_use_app_any; [apply Hscbu|apply Hcbu]. }
    intros i slide Hslide. destruct i as [|i].
    + injection Hslide as <-. cbn [google_slide_id].
      split; [f_equal; lia|].
      cbn [Nat.mul Nat.add].
      rewrite lookup_app_r by (rewrite Hhlen; lia).
      rewrite Hhlen. cbn [Nat.sub].
      destruct sbody as [|j sbody]; [done|]. split; [exact Hskind|exact Hsid].
    + cbn [lookup list_lookup] in Hslide.
      destruct (Hi i slide Hslide) as (Hid & Hk & Ho).
      split; [rewrite Hid; f_equal; subst ids; lia|].
      replace (S i * per_slide + 2)%nat
        with (length hbody + (length sbody + (i * per_slide + 2)))%nat
        by (rewrite Hhlen, Hslen; subst per_slide; lia).
      rewrite !lookup_app_r by lia.
      replace (length hbody + (length sbody + (i * per_slide + 2))
               - length hbody - length sbody)%nat
        with (i * per_slide + 2)%nat by lia.
      done.
Qed.

(** X15.  [generate_roadmap_slides] sends exactly one batch of
    [16 + 6n] requests for each category and draws [7 + 2n] identifiers for
    each; it returns the slides when the service accepts the batch and
    raises what the service raises otherwise.  The slides have the
    categories as titles and categories, in order; every request but those
    that create the slides refers to something created earlier in the batch,
    be it the page a shape or line is put on or the element a request
    writes to; and the slide with index [i] is created by the request at
    [i * (16 + 6n) + 2]. *)
Theorem skeleton_batch uuid4_draw presentation_id slides_service cfg lh lm
    arrow qm quarters rb columns categories w :
  skeleton_config cfg lh lm arrow qm quarters rb columns →
  columns ≠ [] →
  let per_slide := (16 + 6 * length columns)%nat in
  ∃ slide_reqs slides w',
    let body := JObj [("requests", JArr slide_reqs)] in
    generate_roadmap_slides uuid4_draw presentation_id slides_service
      categories cfg w
    = (match slides_service presentation_id body with
       | Ok _ => Ok slides
       | Raise e => Raise e
       end, w')
    ∧ requests_sent w' = requests_sent w ++ [(presentation_id, body)]
    ∧ draws w'
      = (draws w + length categories * (7 + 2 * length columns))%nat
    ∧ length slide_reqs = (length categories * per_slide)%nat
    ∧ map title slides = categories
    ∧ map product_category slides = categories
    ∧ created_before_use [] slide_reqs
    ∧ (∀ i slide, slides !! i = Some slide →
         (slide_reqs !! (i * per_slide + 2)%nat ≫= request_kind)
         = Some "createSlide"
         ∧ (slide_reqs !! (i * per_slide + 2)%nat ≫= request_objectId)
           = Some (google_slide_id slide)).
Proof.
  intros Hcfg Hne per_slide.
  destruct (roadmap_slides_loop_run uuid4_draw _ _ _ _ _ _ _ _ categories w
              Hcfg Hne)
    as (reqs & slides & Hrun & Hlen & Ht & Hc & Hcbu & Hi).
  exists reqs, slides. eexists. cbn zeta.
  unfold generate_roadmap_slides.
  erewrite Gen_bind_Ok by exact Hrun. cbv beta iota.
  unfold mbind, Gen_bind. rewrite updateSlides_run.
  split.
  { destruct (slides_service presentation_id _); reflexivity. }
  cbn [requests_sent draws]. split; [done|]. split; [lia|].
  split; [exact Hlen|]. split; [exact Ht|]. split; [exact Hc|].
  split; [apply Hcbu|]. intros i slide Hs.
  by destruct (Hi i slide Hs) as (_ & ? & ?).
Qed.

(** X16.  With a complete configuration, a column, issues found and
    normalized, and a service that accepts every batch,
    [generate_roadmap_deck] sends exactly two batches and returns the
    summary: twice as many slides as categories, the number of categories
    and the number of issues. *)
Theorem deck_succeeds uuid4_draw set_iteration jira_service google_service cfg
    kwargs lh lm arrow qm quarters rb columns presentation_id issues w :
  cfg_jira_roadmap_issues cfg = Some kwargs →
  skeleton_config cfg lh lm arrow qm quarters rb columns →
  columns ≠ [] →
  get_roadmap_issues jira_service (jira_project kwargs) (issue_type kwargs)
    (product_category_mode kwargs) (product_category_prefix kwargs)
    (include_beta kwargs) (beta_attribute_name kwargs) = Ok issues →
  (∀ body, ∃ reply, google_service presentation_id body = Ok reply) →
  let categories := get_unique_product_groups set_iteration issues in
  ∃ skeleton_body population_body w',
    generate_roadmap_deck uuid4_draw set_iteration jira_service
      google_service cfg presentation_id w
    = (Ok ("Generated " +:+ pretty (length categories * 2)%nat +:+
           " slides, " +:+ pretty (length categories) +:+
           " product categories, and " +:+ pretty (length issues) +:+
           " roadmap items."), w')
    ∧ requests_sent w'
      = requests_sent w
        ++ [(presentation_id, skeleton_body);
            (presentation_id, population_body)].
Proof.
  intros Hk Hsk Hne Hget Hservice categories.
  assert (Hcfg : populate_config cfg rb arrow lh columns)
    by (destruct Hsk; by constructor).
  unfold generate_roadmap_deck. rewrite Hk.
  erewrite Gen_bind_Ok by apply lift_Ok. rewrite Hget.
  erewrite Gen_bind_Ok by apply lift_Ok.
  fold categories.
  destruct (roadmap_slides_loop_run uuid4_draw _ _ _ _ _ _ _ _ categories w
              Hsk Hne)
    as (reqs & slides & Hloop & _ & Ht & _).
  assert (Hlen : length slides = length categories)
    by (by rewrite <- Ht, length_map).
  destruct (Hservice (JObj [("requests", JArr reqs)])) as [reply1 Hr1].
  erewrite Gen_bind_Ok.
  2: { unfold generate_roadmap_slides.
       erewrite Gen_bind_Ok by exact Hloop. cbv beta iota.
       unfold mbind, Gen_bind. rewrite updateSlides_run, Hr1. reflexivity. }
  match goal with
  | |- context [@mbind Gen _ _ _ _ (populate_roadmap_with_issues _ _ _ _ _ _) ?w1] =>
      destruct (roadmap_placements_run uuid4_draw _ _ _ _ _ slides issues w1
                  Hcfg)
        as (columns' & per_slide & w2 & Hrun & _ & _ & Hsent)
  end.
  destruct (Hservice (JObj [("requests",
              JArr (map (λ p, JArr (roadmap_shape p)) (concat per_slide)))]))
    as [reply2 Hr2].
  erewrite Gen_bind_Ok.
  2: { unfold populate_roadmap_with_issues.
       erewrite Gen_bind_Ok by exact Hrun. cbv beta iota.
       rewrite updateSlides_run, Hr2. reflexivity. }
  unfold mret, Gen_ret. rewrite Hlen. eexists _, _, _.
  split; [reflexivity|]. cbn [requests_sent] in *.
  by rewrite Hsent, <- app_assoc.
Qed.

(** X17.  When the service refuses the batches, [generate_roadmap_deck]
    raises what the service raised after sending the skeleton batch only:
    the population batch is never sent. *)
Theorem deck_stops_at_failed_batch uuid4_draw set_iteration jira_service
    google_service cfg kwargs lh lm arrow qm quarters rb columns
    presentation_id issues e w :
  cfg_jira_roadmap_issues cfg = Some kwargs →
  skeleton_config cfg lh lm arrow qm quarters rb columns →
  columns ≠ [] →
  get_roadmap_issues jira_service (jira_project kwargs) (issue_type kwargs)
    (product_category_mode kwargs) (product_category_prefix kwargs)
    (include_beta kwargs) (beta_attribute_name kwargs) = Ok issues →
  (∀ body, google_service presentation_id body = Raise e) →
  ∃ skeleton_body w',
    generate_roadmap_deck uuid4_draw set_iteration jira_service
      google_service cfg presentation_id w = (Raise e, w')
    ∧ requests_sent w'
      = requests_sent w ++ [(presentation_id, skeleton_body)].
Proof.
  intros Hk Hsk Hne Hget Hservice.
  unfold generate_roadmap_deck. rewrite Hk.
  erewrite Gen_bind_Ok by apply lift_Ok. rewrite Hget.
  erewrite Gen_bind_Ok by apply lift_Ok.
  destruct (roadmap_slides_loop_run uuid4_draw _ _ _ _ _ _ _ _
              (get_unique_product_groups set_iteration issues) w Hsk Hne)
    as (reqs & slides & Hloop & _).
  unfold generate_roadmap_slides.
  unfold mbind at 1, Gen_bind at 1.
  erewrite Gen_bind_Ok by exact Hloop. cbv beta iota.
  unfold mbind at 1, Gen_bind at 1. rewrite updateSlides_run, Hservice.
  eexists _, _. split; reflexivity.
Qed.

(** ** Sample runs of the further properties *)

Lemma normalized_in_query_order_witness :
  get_roadmap_issues sample_jira "RM" "Initiative" "components" "Product: "
    false "customfield_10042" = Ok (take 1 sample_normalized)
  ∧ map jira_id (take 1 sample_normalized) = ["RM-1"]
  ∧ Forall (λ r, beta r = false) (take 1 sample_normalized).
Proof.
  assert (H : get_roadmap_issues sample_jira "RM" "Initiative" "components"
                "Product: " false "customfield_10042"
              = Ok (take 1 sample_normalized)) by (vm_compute; reflexivity).
  split; [exact H|].
  destruct (normalized_in_query_order _ _ _ _ _ _ _ _ H) as (Hid & _ & _ & Hb).
  split; [rewrite Hid; vm_compute; reflexivity|].
  apply Hb. reflexivity.
Defined.

Lemma normalization_succeeds_iff_witness :
  ("components" = "components" ∨ "components" = "labels")
  ∧ search_issues jira_with_missing_attribute (jql_filter "RM" "Initiative")
    ≠ []
  ∧ get_roadmap_issues jira_with_missing_attribute "RM" "Initiative"
      "components" "Product: " true "customfield_10042"
    = Raise (AttributeError "customfield_10042")
  ∧ get_roadmap_issues jira_with_text_attribute "RM" "Initiative"
      "components" "Product: " false "customfield_10042"
    = Raise (AttributeError "value")
  ∧ ∃ out, get_roadmap_issues sample_jira "RM" "Initiative" "components"
             "Product: " true "customfield_10042" = Ok out.
Proof.
  assert (Hm : "components" = "components" ∨ "components" = "labels")
    by (left; reflexivity).
  assert (H1 : search_issues jira_with_missing_attribute
                 (jql_filter "RM" "Initiative") ≠ []) by discriminate.
  assert (H2 : search_issues sample_jira (jql_filter "RM" "Initiative") ≠ [])
    by discriminate.
  assert (H3 : search_issues jira_with_text_attribute
                 (jql_filter "RM" "Initiative") ≠ []) by discriminate.
  split; [exact Hm|]. split; [exact H1|].
  destruct (normalization_succeeds_iff jira_with_missing_attribute "RM"
              "Initiative" "components" "Product: " true "customfield_10042"
              Hm H1) as [_ Hfail].
  destruct (normalization_succeeds_iff jira_with_text_attribute "RM"
              "Initiative" "components" "Product: " false "customfield_10042"
              Hm H3) as [_ Htext].
  destruct (normalization_succeeds_iff sample_jira "RM" "Initiative"
              "components" "Product: " true "customfield_10042" Hm H2)
    as [Hok _].
  split; [|split].
  - apply (Hfail [issue_plain] issue_without_attribute []);
      [reflexivity|repeat constructor|reflexivity].
  - apply (Htext [issue_plain] issue_with_text_attribute
             [issue_without_attribute]);
      [reflexivity|repeat constructor|reflexivity].
  - apply Hok. repeat constructor.
Defined.

Lemma label_categories_witness :
  ∃ r,
    roadmap_issue_of "labels" "Product: " true "customfield_10042" issue_plain
    = Ok (Some r)
    ∧ product_categories r = ["Billing"].
Proof.
  eexists. split; [vm_compute; reflexivity|].
  refine (eq_trans (proj1 (label_categories "Product: " true
                             "customfield_10042" issue_plain _ _)) _);
    [vm_compute; reflexivity|reflexivity].
Defined.

Lemma skeleton_slide_built_witness :
  skeleton_config sample_full_config sample_header sample_main sample_arrow
    sample_marker (JArr []) sample_box sample_columns
  ∧ sample_columns ≠ []
  ∧ ∃ body slide_id w',
      gen_roadmap_slide_req sample_uuid "Search" sample_full_config
        sample_world = (Ok (body, slide_id), w')
      ∧ draws w' = 13%nat
      ∧ length body = 38%nat
      ∧ inserted_texts body
        = ["Search"; newline +:+ newline +:+ newline +:+ "Roadmap"; "Search";
           "Q1"; "Q2"; "Q3"; "Q4"].
Proof.
  assert (H : skeleton_config sample_full_config sample_header sample_main
                sample_arrow sample_marker (JArr []) sample_box
                sample_columns) by (constructor; reflexivity).
  assert (Hne : sample_columns ≠ []) by discriminate.
  split; [exact H|]. split; [exact Hne|].
  destruct (skeleton_slide_built sample_uuid "Search" _ _ _ _ _ _ _ _
              sample_world H Hne)
    as (body & slide_id & w' & Hrun & Hd & _ & Hl & _ & _ & _ & Ht).
  exists body, slide_id, w'. split; [exact Hrun|].
  split; [exact Hd|]. split; [exact Hl|exact Ht].
Defined.

Lemma no_columns_ZeroDivisionError_witness :
  skeleton_config config_without_columns sample_header sample_main
    sample_arrow sample_marker (JArr []) sample_box []
  ∧ fst (gen_roadmap_slide_req sample_uuid "Search" config_without_columns
           sample_world) = Raise ZeroDivisionError
  ∧ roadmap_placements sample_uuid [sample_slide] config_without_columns
      sample_issues sample_world = (Raise ZeroDivisionError, sample_world).
Proof.
  assert (H : skeleton_config config_without_columns sample_header sample_main
                sample_arrow sample_marker (JArr []) sample_box [])
    by (constructor; reflexivity).
  split; [exact H|].
  exact (no_columns_ZeroDivisionError sample_uuid _ _ _ _ _ _ _ "Search"
           [sample_slide] sample_issues sample_world H).
Defined.


Lemma sample_uuid_inj i j : sample_uuid i = sample_uuid j → i = j.
Proof.
  unfold sample_uuid. intros H.
  cbv beta iota fix delta [String.append] in H.
  injection H as H. by apply (inj pretty) in H.
Defined.

Lemma population_identifiers_witness :
  populate_config sample_config sample_box sample_arrow sample_header
    sample_columns
  ∧ ∃ columns' placed w',
      roadmap_placements sample_uuid [sample_slide] sample_config
        sample_issues sample_world = (Ok (columns', placed), w')
      ∧ draws w' = draws_of (map box placed)
      ∧ NoDup (placed ≫= (λ p, body_created_ids (roadmap_shape p))).
Proof.
  assert (H : populate_config sample_config sample_box sample_arrow
                sample_header sample_columns)
    by (constructor; [reflexivity..|discriminate]).
  split; [exact H|].
  destruct (population_identifiers sample_uuid _ _ _ _ _ [sample_slide]
              sample_issues sample_world H)
    as (columns' & placed & w' & Hrun & Hd & _ & _ & Hnd).
  exists columns', placed, w'. split; [exact Hrun|].
  split; [exact Hd|]. apply Hnd, sample_uuid_inj.
Defined.

Lemma counters_left_in_config_witness :
  populate_config sample_config sample_box sample_arrow sample_header
    sample_columns
  ∧ ∃ columns' placed w',
      roadmap_placements sample_uuid [sample_slide] sample_config
        sample_issues sample_world = (Ok (columns', placed), w')
      ∧ map label columns' = ["Q1"; "Q2"; "Q3"; "Q4"]
      ∧ count <$> columns' !! 1%nat = Some 1%Z.
Proof.
  assert (H : populate_config sample_config sample_box sample_arrow
                sample_header sample_columns)
    by (constructor; [reflexivity..|discriminate]).
  split; [exact H|].
  destruct (counters_left_in_config sample_uuid _ _ _ _ _ [sample_slide]
              sample_issues sample_world H)
    as (columns' & placed & w' & Hrun & Hl & _ & _ & Hc).
  exists columns', placed, w'. split; [exact Hrun|].
  split; [exact Hl|].
  rewrite (Hc [] sample_slide 1%nat _ eq_refl eq_refl).
  vm_compute. reflexivity.
Defined.

Lemma sample_columns_disjoint : disjoint_columns sample_columns.
Proof.
  intros c1 c2 col1 col2 status H1 H2 Hs1 Hs2.
  destruct c1 as [|[|[|[|c1]]]]; try discriminate H1;
    injection H1 as <-;
    (destruct c2 as [|[|[|[|c2]]]]; try discriminate H2;
     injection H2 as <-; try reflexivity);
    apply list_elem_of_In in Hs1; apply list_elem_of_In in Hs2;
    cbn in Hs1, Hs2; intuition congruence.
Defined.

Lemma disjoint_columns_first_match_witness :
  populate_config sample_config sample_box sample_arrow sample_header
    sample_columns
  ∧ disjoint_columns sample_columns
  ∧ ∃ columns' placed w',
      roadmap_placements sample_uuid [sample_slide] sample_config
        sample_issues sample_world = (Ok (columns', placed), w')
      ∧ map (λ p, (jira_id (key (box p)).1.2, (key (box p)).2)) placed
        = [("RM-1", 0%nat); ("RM-2", 0%nat); ("RM-3", 1%nat);
           ("RM-4", 0%nat)].
Proof.
  assert (H : populate_config sample_config sample_box sample_arrow
                sample_header sample_columns)
    by (constructor; [reflexivity..|discriminate]).
  split; [exact H|]. split; [exact sample_columns_disjoint|].
  destruct (disjoint_columns_first_match sample_uuid _ _ _ _ _ [sample_slide]
              sample_issues sample_world H sample_columns_disjoint)
    as (columns' & placed & w' & Hrun & Hk).
  exists columns', placed, w'. split; [exact Hrun|].
  rewrite <- (map_map (λ p, key (box p))
                (λ k, (jira_id k.1.2, k.2)) placed), Hk.
  vm_compute. reflexivity.
Defined.


Lemma skeleton_batch_witness :
  skeleton_config sample_full_config sample_header sample_main sample_arrow
    sample_marker (JArr []) sample_box sample_columns
  ∧ sample_columns ≠ []
  ∧ ∃ slide_reqs slides w',
      generate_roadmap_slides sample_uuid "deck-1" accepting_service
        ["Search"; "Billing"] sample_full_config sample_world
      = (Ok slides, w')
      ∧ requests_sent w'
        = [("deck-1", JObj [("requests", JArr slide_reqs)])]
      ∧ draws w' = 30%nat
      ∧ length slide_reqs = 80%nat
      ∧ map title slides = ["Search"; "Billing"].
Proof.
  assert (H : skeleton_config sample_full_config sample_header sample_main
                sample_arrow sample_marker (JArr []) sample_box
                sample_columns) by (constructor; reflexivity).
  assert (Hne : sample_columns ≠ []) by discriminate.
  split; [exact H|]. split; [exact Hne|].
  destruct (skeleton_batch sample_uuid "deck-1" accepting_service _ _ _ _ _ _
              _ _ ["Search"; "Billing"] sample_world H Hne)
    as (slide_reqs & slides & w' & Hrun & Hsent & Hd & Hl & Ht & _).
  exists slide_reqs, slides, w'. split; [exact Hrun|].
  split; [exact Hsent|]. split; [exact Hd|]. split; [exact Hl|exact Ht].
Defined.

Lemma deck_succeeds_witness :
  cfg_jira_roadmap_issues sample_full_config = Some sample_kwargs
  ∧ skeleton_config sample_full_config sample_header sample_main sample_arrow
      sample_marker (JArr []) sample_box sample_columns
  ∧ sample_columns ≠ []
  ∧ get_roadmap_issues sample_jira "RM" "Initiative" "components" "Product: "
      true "customfield_10042" = Ok sample_normalized
  ∧ (∀ body, ∃ reply, accepting_service "deck-1" body = Ok reply)
  ∧ ∃ w',
      generate_roadmap_deck sample_uuid remove_dups sample_jira
        accepting_service sample_full_config "deck-1" sample_world
      = (Ok "Generated 2 slides, 1 product categories, and 2 roadmap items.",
         w')
      ∧ length (requests_sent w') = 2%nat.
Proof.
  assert (Hk : cfg_jira_roadmap_issues sample_full_config = Some sample_kwargs)
    by reflexivity.
  assert (H : skeleton_config sample_full_config sample_header sample_main
                sample_arrow sample_marker (JArr []) sample_box
                sample_columns) by (constructor; reflexivity).
  assert (Hne : sample_columns ≠ []) by discriminate.
  assert (Hget : get_roadmap_issues sample_jira (jira_project sample_kwargs)
                   (issue_type sample_kwargs)
                   (product_category_mode sample_kwargs)
                   (product_category_prefix sample_kwargs)
                   (include_beta sample_kwargs)
                   (beta_attribute_name sample_kwargs) = Ok sample_normalized)
    by (vm_compute; reflexivity).
  assert (Hsvc : ∀ body, ∃ reply, accepting_service "deck-1" body = Ok reply)
    by (intros body; exists (JObj []); reflexivity).
  split; [exact Hk|]. split; [exact H|]. split; [exact Hne|].
  split; [exact Hget|]. split; [exact Hsvc|].
  destruct (deck_succeeds sample_uuid remove_dups sample_jira
              accepting_service _ _ _ _ _ _ _ _ _ "deck-1" _ sample_world
              Hk H Hne Hget Hsvc)
    as (b1 & b2 & w' & Hrun & Hsent).
  exists w'. split; [exact Hrun|]. rewrite Hsent. reflexivity.
Defined.

Lemma deck_stops_at_failed_batch_witness :
  cfg_jira_roadmap_issues sample_full_config = Some sample_kwargs
  ∧ skeleton_config sample_full_config sample_header sample_main sample_arrow
      sample_marker (JArr []) sample_box sample_columns
  ∧ sample_columns ≠ []
  ∧ get_roadmap_issues sample_jira "RM" "Initiative" "components" "Product: "
      true "customfield_10042" = Ok sample_normalized
  ∧ (∀ body, failing_service "deck-1" body = Raise (Exception "HttpError"))
  ∧ ∃ w',
      generate_roadmap_deck sample_uuid remove_dups sample_jira
        failing_service sample_full_config "deck-1" sample_world
      = (Raise (Exception "HttpError"), w')
      ∧ length (requests_sent w') = 1%nat.
Proof.
  assert (Hk : cfg_jira_roadmap_issues sample_full_config = Some sample_kwargs)
    by reflexivity.
  assert (H : skeleton_config sample_full_config sample_header sample_main
                sample_arrow sample_marker (JArr []) sample_box
                sample_columns) by (constructor; reflexivity).
  assert (Hne : sample_columns ≠ []) by discriminate.
  assert (Hget : get_roadmap_issues sample_jira (jira_project sample_kwargs)
                   (issue_type sample_kwargs)
                   (product_category_mode sample_kwargs)
                   (product_category_prefix sample_kwargs)
                   (include_beta sample_kwargs)
                   (beta_attribute_name sample_kwargs) = Ok sample_normalized)
    by (vm_compute; reflexivity).
  assert (Hsvc : ∀ body,
             failing_service "deck-1" body = Raise (Exception "HttpError"))
    by reflexivity.
  split; [exact Hk|]. split; [exact H|]. split; [exact Hne|].
  split; [exact Hget|]. split; [exact Hsvc|].
  destruct (deck_stops_at_failed_batch sample_uuid remove_dups sample_jira
              failing_service _ _ _ _ _ _ _ _ _ "deck-1" _ _ sample_world
              Hk H Hne Hget Hsvc)
    as (b1 & w' & Hrun & Hsent).
  exists w'. split; [exact Hrun|]. rewrite Hsent. reflexivity.
Defined.
